(** * Android signing credentials and the web-preview opener of xdl

    A shallow embedding of
    [packages/xdl/src/credentials/AndroidCredentials.js] and
    [packages/xdl/src/Web.js].

    JavaScript strings are modelled as [string] (a string stands for the
    bytes of its UTF-8 text, which for the hexadecimal, base64 and
    decimal strings this code builds are its characters), buffers as
    [list byte], the file system as a finite map from paths to contents,
    and an [async] function as a computation over an explicit state that
    either returns (the promise resolves) or throws (it rejects). *)

From Stdlib Require Import NArith ZArith Lia List Bool.
From Stdlib Require Import Strings.Ascii Strings.String Strings.Byte DecimalString.
From stdpp Require Import gmap strings list fin_maps.

Import ListNotations.
Local Open Scope string_scope.

(** ** Bytes, characters and strings *)

Module Bytes.

Definition byte_of_N (n : N) : byte :=
  match Byte.of_N (n mod 256) with
  | Some b => b
  | None => x00
  end.

Definition byte_of_char (c : ascii) : byte := byte_of_ascii c.
Definition char_of_byte (b : byte) : ascii := ascii_of_byte b.

(** [Buffer.from(s)]: the bytes of the text. *)
Definition buffer_from (s : string) : list byte := list_byte_of_string s.

Fixpoint str_all (p : ascii -> bool) (s : string) : bool :=
  match s with
  | EmptyString => true
  | String c r => p c && str_all p r
  end.

Fixpoint str_count (p : ascii -> bool) (s : string) : nat :=
  match s with
  | EmptyString => 0
  | String c r => (if p c then 1 else 0) + str_count p r
  end.

Fixpoint str_last (s : string) : option ascii :=
  match s with
  | EmptyString => None
  | String c EmptyString => Some c
  | String _ r => str_last r
  end.

Definition is_char (c d : ascii) : bool := Ascii.eqb c d.

Definition is_colon : ascii -> bool := is_char ":".
Definition is_hyphen : ascii -> bool := is_char "-".

(** [String.prototype.toUpperCase] on the ASCII range. *)
Definition upper_char (c : ascii) : ascii :=
  let n := N_of_ascii c in
  if ((97 <=? n) && (n <=? 122))%N then ascii_of_N (n - 32) else c.

Fixpoint toUpperCase (s : string) : string :=
  match s with
  | EmptyString => EmptyString
  | String c r => String (upper_char c) (toUpperCase r)
  end.

(** The digits of [digest('hex')] and of the uuid formatter. *)
Definition hex_digit (n : N) : ascii :=
  match n with
  | 0 => "0" | 1 => "1" | 2 => "2" | 3 => "3" | 4 => "4"
  | 5 => "5" | 6 => "6" | 7 => "7" | 8 => "8" | 9 => "9"
  | 10 => "a" | 11 => "b" | 12 => "c" | 13 => "d" | 14 => "e"
  | _ => "f"
  end%N%char.

Definition hex_byte (b : byte) (k : string) : string :=
  let n := Byte.to_N b in
  String (hex_digit (n / 16)) (String (hex_digit (n mod 16)) k).

Fixpoint hex (bs : list byte) : string :=
  match bs with
  | [] => EmptyString
  | b :: r => hex_byte b (hex r)
  end.

Definition is_upper_hex (c : ascii) : bool :=
  let n := N_of_ascii c in
  ((48 <=? n) && (n <=? 57) || (65 <=? n) && (n <=? 70))%N.

Definition is_lower_hex (c : ascii) : bool :=
  let n := N_of_ascii c in
  ((48 <=? n) && (n <=? 57) || (97 <=? n) && (n <=? 102))%N.

(** [s.replace(/-/g, '')]. *)
Fixpoint strip_hyphens (s : string) : string :=
  match s with
  | EmptyString => EmptyString
  | String c r => if is_hyphen c then strip_hyphens r else String c (strip_hyphens r)
  end.

(** The regular expression atom [.] matches every character but a
    line terminator. *)
Definition dot (c : ascii) : bool :=
  negb (is_char c "010" || is_char c "013").

Definition at_end (s : string) : bool :=
  match s with EmptyString => true | _ => false end.

(** [s.replace(/(.{2}(?!$))/g, '$1:')]: scanning from the left, two
    characters matched by [.] that do not end the string are copied
    and followed by a colon, and the scan resumes after them; where
    there is no match the character is copied and the scan moves on by
    one. *)
Fixpoint colon_pairs (s : string) : string :=
  match s with
  | String c1 (String c2 rest as t) =>
      if dot c1 && dot c2 && negb (at_end rest)
      then String c1 (String c2 (String ":" (colon_pairs rest)))
      else String c1 (colon_pairs t)
  | _ => s
  end.

(** The reading of the pattern the property is stated against: the
    string cut into pairs from the start, the pairs joined by colons. *)
Fixpoint pairs (s : string) : list string :=
  match s with
  | String c1 (String c2 rest) => String c1 (String c2 EmptyString) :: pairs rest
  | EmptyString => []
  | String c EmptyString => [String c EmptyString]
  end.

Fixpoint join (sep : string) (l : list string) : string :=
  match l with
  | [] => EmptyString
  | [x] => x
  | x :: r => x ++ sep ++ join sep r
  end.

(** Decimal rendering of a number in a template literal. *)
Definition decimal (z : Z) : string := NilZero.string_of_int (Z.to_int z).

End Bytes.

(** ** SHA-1, as [crypto.createHash('sha1')] computes it (FIPS 180-4) *)

Module Sha1.
Import Bytes.
Local Open Scope N_scope.

Definition w32 (x : N) : N := x mod 4294967296.
Definition add32 (x y : N) : N := w32 (x + y).
Definition rotl (k x : N) : N :=
  w32 (N.lor (N.shiftl x k) (N.shiftr x (32 - k))).
Definition not32 (x : N) : N := 4294967295 - w32 x.

Definition word_of_bytes (a b c d : byte) : N :=
  Byte.to_N a * 16777216 + Byte.to_N b * 65536 + Byte.to_N c * 256 + Byte.to_N d.

Definition bytes_of_word (x : N) : list byte :=
  [byte_of_N (x / 16777216); byte_of_N (x / 65536); byte_of_N (x / 256); byte_of_N x].

(** Message padding: a one bit, zeros up to 56 modulo 64, and the bit
    length on eight bytes, big endian. *)
Definition pad (msg : list byte) : list byte :=
  let n := N.of_nat (List.length msg) in
  let zeros := N.to_nat ((119 - n mod 64) mod 64) in
  let bits := n * 8 in
  msg ++ [x80] ++ List.repeat x00 zeros
      ++ bytes_of_word (bits / 4294967296) ++ bytes_of_word bits.

Fixpoint words (fuel : nat) (bs : list byte) : list N :=
  match fuel, bs with
  | S f, a :: b :: c :: d :: r => word_of_bytes a b c d :: words f r
  | _, _ => []
  end.

(** The message schedule, kept newest first. *)
Fixpoint schedule (n : nat) (rev_w : list N) : list N :=
  match n with
  | O => rev_w
  | S k =>
      let x := N.lxor (N.lxor (nth 2 rev_w 0) (nth 7 rev_w 0))
                      (N.lxor (nth 13 rev_w 0) (nth 15 rev_w 0)) in
      schedule k (rotl 1 x :: rev_w)
  end.

Definition round_f (t : nat) (b c d : N) : N :=
  if (t <? 20)%nat then N.lor (N.land b c) (N.land (not32 b) d)
  else if (t <? 40)%nat then N.lxor (N.lxor b c) d
  else if (t <? 60)%nat then N.lor (N.lor (N.land b c) (N.land b d)) (N.land c d)
  else N.lxor (N.lxor b c) d.

Definition round_k (t : nat) : N :=
  if (t <? 20)%nat then 1518500249
  else if (t <? 40)%nat then 1859775393
  else if (t <? 60)%nat then 2400959708
  else 3395469782.

Definition hash_state : Type := N * N * N * N * N.

Fixpoint rounds (t : nat) (ws : list N) (st : hash_state) : hash_state :=
  match ws with
  | [] => st
  | w :: r =>
      let '(a, b, c, d, e) := st in
      let tmp := add32 (add32 (add32 (add32 (rotl 5 a) (round_f t b c d)) e) (round_k t)) w in
      rounds (S t) r (tmp, a, rotl 30 b, c, d)
  end.

Definition compress (st : hash_state) (block : list byte) : hash_state :=
  let ws := List.rev (schedule 64 (List.rev (words 16 block))) in
  let '(a, b, c, d, e) := rounds 0 ws st in
  let '(h0, h1, h2, h3, h4) := st in
  (add32 h0 a, add32 h1 b, add32 h2 c, add32 h3 d, add32 h4 e).

Fixpoint blocks (fuel : nat) (bs : list byte) (st : hash_state) : hash_state :=
  match fuel with
  | O => st
  | S f =>
      match bs with
      | [] => st
      | _ => blocks f (skipn 64 bs) (compress st (firstn 64 bs))
      end
  end.

Definition init : hash_state :=
  (1732584193, 4023233417, 2562383102, 271733878, 3285377520).

Definition digest (msg : list byte) : list byte :=
  let p := pad msg in
  let '(h0, h1, h2, h3, h4) := blocks (List.length p) p init in
  bytes_of_word h0 ++ bytes_of_word h1 ++ bytes_of_word h2
    ++ bytes_of_word h3 ++ bytes_of_word h4.

End Sha1.

(** ** SHA-256, as [crypto.createHash('sha256')] computes it *)

Module Sha256.
Import Bytes.
Local Open Scope N_scope.

Definition rotr (k x : N) : N := Sha1.rotl (32 - k) x.

Definition sigma0 (x : N) : N :=
  N.lxor (N.lxor (rotr 7 x) (rotr 18 x)) (N.shiftr x 3).
Definition sigma1 (x : N) : N :=
  N.lxor (N.lxor (rotr 17 x) (rotr 19 x)) (N.shiftr x 10).
Definition Sigma0 (x : N) : N :=
  N.lxor (N.lxor (rotr 2 x) (rotr 13 x)) (rotr 22 x).
Definition Sigma1 (x : N) : N :=
  N.lxor (N.lxor (rotr 6 x) (rotr 11 x)) (rotr 25 x).
Definition Ch (x y z : N) : N :=
  N.lxor (N.land x y) (N.land (Sha1.not32 x) z).
Definition Maj (x y z : N) : N :=
  N.lxor (N.lxor (N.land x y) (N.land x z)) (N.land y z).

Definition K : list N :=
  [ 1116352408; 1899447441; 3049323471; 3921009573; 961987163; 1508970993;
    2453635748; 2870763221; 3624381080; 310598401; 607225278; 1426881987;
    1925078388; 2162078206; 2614888103; 3248222580; 3835390401; 4022224774;
    264347078; 604807628; 770255983; 1249150122; 1555081692; 1996064986;
    2554220882; 2821834349; 2952996808; 3210313671; 3336571891; 3584528711;
    113926993; 338241895; 666307205; 773529912; 1294757372; 1396182291;
    1695183700; 1986661051; 2177026350; 2456956037; 2730485921; 2820302411;
    3259730800; 3345764771; 3516065817; 3600352804; 4094571909; 275423344;
    430227734; 506948616; 659060556; 883997877; 958139571; 1322822218;
    1537002063; 1747873779; 1955562222; 2024104815; 2227730452; 2361852424;
    2428436474; 2756734187; 3204031479; 3329325298 ].

Fixpoint schedule (n : nat) (rev_w : list N) : list N :=
  match n with
  | O => rev_w
  | S k =>
      let x := Sha1.add32 (Sha1.add32 (sigma1 (nth 1 rev_w 0)) (nth 6 rev_w 0))
                          (Sha1.add32 (sigma0 (nth 14 rev_w 0)) (nth 15 rev_w 0)) in
      schedule k (x :: rev_w)
  end.

Definition hash_state : Type := N * N * N * N * N * N * N * N.

Fixpoint rounds (kws : list (N * N)) (st : hash_state) : hash_state :=
  match kws with
  | [] => st
  | (k, w) :: r =>
      let '(a, b, c, d, e, f, g, h) := st in
      let t1 := Sha1.add32 (Sha1.add32 (Sha1.add32 (Sha1.add32 h (Sigma1 e)) (Ch e f g)) k) w in
      let t2 := Sha1.add32 (Sigma0 a) (Maj a b c) in
      rounds r (Sha1.add32 t1 t2, a, b, c, Sha1.add32 d t1, e, f, g)
  end.

Definition compress (st : hash_state) (block : list byte) : hash_state :=
  let ws := List.rev (schedule 48 (List.rev (Sha1.words 16 block))) in
  let '(a, b, c, d, e, f, g, h) := rounds (List.combine K ws) st in
  let '(h0, h1, h2, h3, h4, h5, h6, h7) := st in
  (Sha1.add32 h0 a, Sha1.add32 h1 b, Sha1.add32 h2 c, Sha1.add32 h3 d,
   Sha1.add32 h4 e, Sha1.add32 h5 f, Sha1.add32 h6 g, Sha1.add32 h7 h).

Fixpoint blocks (fuel : nat) (bs : list byte) (st : hash_state) : hash_state :=
  match fuel with
  | O => st
  | S f =>
      match bs with
      | [] => st
      | _ => blocks f (skipn 64 bs) (compress st (firstn 64 bs))
      end
  end.

Definition init : hash_state :=
  (1779033703, 3144134277, 1013904242, 2773480762,
   1359893119, 2600822924, 528734635, 1541459225).

Definition digest (msg : list byte) : list byte :=
  let p := Sha1.pad msg in
  let '(h0, h1, h2, h3, h4, h5, h6, h7) := blocks (List.length p) p init in
  List.concat (List.map Sha1.bytes_of_word [h0; h1; h2; h3; h4; h5; h6; h7]).

End Sha256.

(** ** Base64, as [Buffer] encodes and decodes it *)

Module Base64.
Import Bytes.
Local Open Scope N_scope.

Definition alphabet : string :=
  "ABCDEFGHIJKLMNOPQRSTUVWXYZabcdefghijklmnopqrstuvwxyz0123456789+/".

Definition digit (n : N) : ascii :=
  match String.get (N.to_nat n) alphabet with
  | Some c => c
  | None => "="%char
  end.

(** [buf.toString('base64')]: three bytes give four digits; a last
    group of one or two bytes is padded with [=]. *)
Fixpoint encode (bs : list byte) : string :=
  match bs with
  | a :: b :: c :: r =>
      let '(x, y, z) := (Byte.to_N a, Byte.to_N b, Byte.to_N c) in
      String (digit (x / 4))
        (String (digit ((x mod 4) * 16 + y / 16))
           (String (digit ((y mod 16) * 4 + z / 64))
              (String (digit (z mod 64)) (encode r))))
  | [a; b] =>
      let '(x, y) := (Byte.to_N a, Byte.to_N b) in
      String (digit (x / 4))
        (String (digit ((x mod 4) * 16 + y / 16))
           (String (digit ((y mod 16) * 4)) "="))
  | [a] =>
      let x := Byte.to_N a in
      String (digit (x / 4)) (String (digit ((x mod 4) * 16)) "==")
  | [] => EmptyString
  end.

(** The value of a digit; the decoder also reads the URL-safe digits
    [-] and [_]. *)
Definition value (c : ascii) : option N :=
  let n := N_of_ascii c in
  if (65 <=? n) && (n <=? 90) then Some (n - 65)
  else if (97 <=? n) && (n <=? 122) then Some (n - 71)
  else if (48 <=? n) && (n <=? 57) then Some (n + 4)
  else if (n =? 43) || (n =? 45) then Some 62
  else if (n =? 47) || (n =? 95) then Some 63
  else None.

(** The decoder skips every character that is not a digit and stops at
    the first [=]. *)
Fixpoint sextets (s : string) : list N :=
  match s with
  | EmptyString => []
  | String c r =>
      if is_char c "=" then []
      else match value c with
           | Some v => v :: sextets r
           | None => sextets r
           end
  end.

Fixpoint octets (l : list N) : list byte :=
  match l with
  | s1 :: s2 :: s3 :: s4 :: r =>
      byte_of_N (s1 * 4 + s2 / 16)
        :: byte_of_N ((s2 mod 16) * 16 + s3 / 4)
        :: byte_of_N ((s3 mod 4) * 64 + s4) :: octets r
  | [s1; s2; s3] =>
      [byte_of_N (s1 * 4 + s2 / 16); byte_of_N ((s2 mod 16) * 16 + s3 / 4)]
  | [s1; s2] => [byte_of_N (s1 * 4 + s2 / 16)]
  | _ => []
  end.

(** [Buffer.from(s, 'base64')]. *)
Definition decode (s : string) : list byte := octets (sextets s).

End Base64.

(** ** Version 4 identifiers, as [uuid/v4] formats sixteen random bytes *)

Module Uuid.
Import Bytes.
Local Open Scope N_scope.

Definition set_version (b : byte) : byte :=
  byte_of_N (N.lor (N.land (Byte.to_N b) 15) 64).
Definition set_variant (b : byte) : byte :=
  byte_of_N (N.lor (N.land (Byte.to_N b) 63) 128).

Fixpoint stamp (i : nat) (rnds : list byte) : list byte :=
  match rnds with
  | [] => []
  | b :: r =>
      (if Nat.eqb i 6 then set_version b
       else if Nat.eqb i 8 then set_variant b else b) :: stamp (S i) r
  end.

(** [bytesToUuid]: hexadecimal digits, a hyphen after the bytes 4, 6,
    8 and 10. *)
Fixpoint format (i : nat) (bs : list byte) : string :=
  match bs with
  | [] => EmptyString
  | b :: r =>
      let sep := (Nat.eqb i 4 || Nat.eqb i 6 || Nat.eqb i 8 || Nat.eqb i 10)%bool in
      (if sep then String "-" (hex_byte b (format (S i) r))
       else hex_byte b (format (S i) r))
  end.

Definition v4 (rnds : list byte) : string := format 0 (stamp 0 rnds).

End Uuid.

(** ** The runtime: thrown values, printed lines, the outside world *)

Module Js.
Import Bytes.

(** An [Error] object, with the properties the code inspects:
    [code], and the [stdout] and [stderr] that [spawnAsync] attaches
    to its rejections. *)
Record JsError := {
  err_name : string;
  err_message : string;
  err_code : option string;
  err_stdout : option string;
  err_stderr : option string
}.

(** What a [throw] or a rejection carries: an error object, or the
    exit code the interactive session rejects with. *)
Inductive Thrown :=
| ThrownError (e : JsError)
| ThrownNumber (n : Z).

Definition new_Error (msg : string) : Thrown :=
  ThrownError {| err_name := "Error"; err_message := msg; err_code := None;
                 err_stdout := None; err_stderr := None |}.

Definition new_TypeError (msg : string) : Thrown :=
  ThrownError {| err_name := "TypeError"; err_message := msg; err_code := None;
                 err_stdout := None; err_stderr := None |}.

Definition system_error (code call path : string) : Thrown :=
  ThrownError {| err_name := "Error";
                 err_message := code ++ ": " ++ call ++ " '" ++ path ++ "'";
                 err_code := Some code; err_stdout := None; err_stderr := None |}.

Definition code_of (t : Thrown) : option string :=
  match t with ThrownError e => err_code e | ThrownNumber _ => None end.
Definition stdout_of (t : Thrown) : option string :=
  match t with ThrownError e => err_stdout e | ThrownNumber _ => None end.
Definition stderr_of (t : Thrown) : option string :=
  match t with ThrownError e => err_stderr e | ThrownNumber _ => None end.
Definition message_of (t : Thrown) : option string :=
  match t with ThrownError e => Some (err_message e) | ThrownNumber _ => None end.

(** [err.code === 'ENOENT'] *)
Definition code_is (t : Thrown) (c : string) : bool :=
  match code_of t with Some d => String.eqb d c | None => false end.

(** Truthiness of an optional string property. *)
Definition truthy (o : option string) : bool :=
  match o with Some (String _ _) => true | _ => false end.

(** A value inside a template literal. *)
Definition display (t : Thrown) : string :=
  match t with
  | ThrownError e =>
      match err_message e with
      | EmptyString => err_name e
      | m => err_name e ++ ": " ++ m
      end
  | ThrownNumber n => decimal n
  end.

Definition display_opt (o : option string) : string :=
  match o with Some s => s | None => "undefined" end.

(** Where a line goes: a call of the [log] argument itself, of its
    [warn] or [error] method, of [console.log], or of
    [Logger.global.error]. *)
Inductive Channel := LogCall | LogWarn | LogError | ConsoleLog | GlobalError.

Inductive Arg :=
| AStr (s : string)
| AThrown (t : Thrown).

Record Line := { chan : Channel; args : list Arg }.

(** The [log] argument: a function, which may or may not carry the
    methods [warn] and [error]. *)
Record Log := { has_warn : bool; has_error : bool }.

(** The default, [logger.info.bind(logger)], is a bound function: it
    carries neither method. *)
Definition default_log : Log := {| has_warn := false; has_error := false |}.

Definition log_or_default (log : option Log) : Log :=
  match log with Some l => l | None => default_log end.

Record CredentialMetadata := {
  username : string;
  experienceName : string;
  platform : string
}.

Record Credentials := {
  keystore : string;
  keystorePassword : string;
  keyPassword : string;
  keystoreAlias : string
}.

Inductive FsOp := OpRead | OpWrite | OpUnlink.

Inductive Event :=
| EvLookup (m : CredentialMetadata)
| EvWriteFile (path : string) (data : list byte)
| EvReadFile (path : string)
| EvUnlink (path : string)
| EvSpawn (exe : string) (argv : list string)
| EvPtySpawn (exe : string) (argv : list string)
| EvPtyWrite (data : string)
| EvDownload (url : string)
| EvOpn (url : string).

Inductive Outcome (A : Type) :=
| Return (a : A)
| Throw (t : Thrown).
Arguments Return {A} a.
Arguments Throw {A} t.

Record SpawnResult := { status : Z; stdout : string; stderr : string }.

Inductive PtyEvent :=
| PtyError (e : JsError)
| PtyExit (exitCode : Z).

(** A pseudo-terminal child: [ptySpawn] throws, or gives a child whose
    first event, and the files it leaves, depend on what is written to
    it. *)
Inductive PtySession :=
| PtyThrows (t : Thrown)
| PtyChild (react : list string -> PtyEvent * gmap string (list byte)).

Record Exp := { platforms : option (list string) }.

(** Everything the code reaches outside itself. *)
Record Env := {
  process_platform : string;
  chalk : string -> string -> string;
  dotExpoHomeDirectory : string;
  path_join : string -> string -> string;
  getCredentialsForPlatform : CredentialMetadata -> Outcome (option Credentials);
  fs_fault : FsOp -> string -> option string;
  spawn : string -> list string -> gmap string (list byte)
          -> Outcome SpawnResult * gmap string (list byte);
  ptySpawn : string -> list string -> gmap string (list byte) -> PtySession;
  axios_get : string -> Outcome (list byte);
  randomBytes : nat -> byte;
  readConfigJson : string -> Outcome (option Exp);
  constructWebAppUrl : string -> Outcome string;
  opn : string -> option Thrown
}.

Record State := {
  files : gmap string (list byte);
  drawn : nat;
  output : list Line;
  trace : list Event
}.

Definition with_files (f : gmap string (list byte)) (s : State) : State :=
  {| files := f; drawn := drawn s; output := output s; trace := trace s |}.
Definition with_drawn (n : nat) (s : State) : State :=
  {| files := files s; drawn := n; output := output s; trace := trace s |}.
Definition emit (l : Line) (s : State) : State :=
  {| files := files s; drawn := drawn s; output := output s ++ [l]; trace := trace s |}.
Definition record (e : Event) (s : State) : State :=
  {| files := files s; drawn := drawn s; output := output s; trace := trace s ++ [e] |}.

(** A computation: from a state to an outcome and a state. *)
Definition M (A : Type) : Type := State -> Outcome A * State.

Definition ret {A} (a : A) : M A := fun s => (Return a, s).
Definition throw {A} (t : Thrown) : M A := fun s => (Throw t, s).
Definition bind {A B} (m : M A) (k : A -> M B) : M B :=
  fun s => match m s with
           | (Return a, s') => k a s'
           | (Throw t, s') => (Throw t, s')
           end.
Definition lift {A} (o : Outcome A) : M A := fun s => (o, s).
Definition modify (f : State -> State) : M unit := fun s => (Return tt, f s).

(** [try { m } catch (err) { h err }] *)
Definition try_catch {A} (m : M A) (h : Thrown -> M A) : M A :=
  fun s => match m s with
           | (Return a, s') => (Return a, s')
           | (Throw t, s') => h t s'
           end.

(** [try { m } finally { f }]: a throw of [f] replaces the outcome of
    [m]. *)
Definition try_finally {A} (m : M A) (f : M unit) : M A :=
  fun s => match m s with
           | (r, s') =>
               match f s' with
               | (Return _, s'') => (r, s'')
               | (Throw t, s'') => (Throw t, s'')
               end
           end.

Definition when (b : bool) (m : M unit) : M unit := if b then m else ret tt.

End Js.

Import Bytes Js.

Notation "x <~ m ;; k" := (bind m (fun x => k))
  (at level 62, m at next level, right associativity).
Notation "m ;;; k" := (bind m (fun _ => k))
  (at level 62, right associativity).

(** ** The objects returned to callers *)

Module Secrets.
Record t := {
  keystorePassword : string;
  keyAlias : string;
  keyPassword : string
}.
End Secrets.

Module OpenResult.
Record t := {
  success : bool;
  url : option string;
  error : option Thrown
}.
End OpenResult.

Definition lf : string := String "010" EmptyString.
Definition crlf : string := String "013" lf.

(** ** The primitives the two files call *)

Section Primitives.
Variable env : Env.

(** [log(...)], [log.warn(...)], [log.error(...)]: calling a method
    the function does not carry throws a [TypeError]. *)
Definition call (log : Log) (a : list Arg) : M unit :=
  modify (emit {| chan := LogCall; args := a |}).

Definition call_warn (log : Log) (a : list Arg) : M unit :=
  if has_warn log then modify (emit {| chan := LogWarn; args := a |})
  else throw (new_TypeError "log.warn is not a function").

Definition call_error (log : Log) (a : list Arg) : M unit :=
  if has_error log then modify (emit {| chan := LogError; args := a |})
  else throw (new_TypeError "log.error is not a function").

Definition console_log (a : list Arg) : M unit :=
  modify (emit {| chan := ConsoleLog; args := a |}).

Definition global_error (a : list Arg) : M unit :=
  modify (emit {| chan := GlobalError; args := a |}).

Definition existsSync (path : string) : M bool :=
  fun s => (Return (bool_decide (is_Some (files s !! path))), s).

Definition writeFileSync (path : string) (data : list byte) : M unit :=
  fun s =>
    let s1 := record (EvWriteFile path data) s in
    match fs_fault env OpWrite path with
    | Some c => (Throw (system_error c "open" path), s1)
    | None => (Return tt, with_files (<[path := data]> (files s1)) s1)
    end.

Definition readFileSync (path : string) : M (list byte) :=
  fun s =>
    let s1 := record (EvReadFile path) s in
    match fs_fault env OpRead path with
    | Some c => (Throw (system_error c "open" path), s1)
    | None =>
        match files s1 !! path with
        | Some data => (Return data, s1)
        | None => (Throw (system_error "ENOENT" "open" path), s1)
        end
    end.

Definition unlinkSync (path : string) : M unit :=
  fun s =>
    let s1 := record (EvUnlink path) s in
    match fs_fault env OpUnlink path with
    | Some c => (Throw (system_error c "unlink" path), s1)
    | None =>
        match files s1 !! path with
        | Some _ => (Return tt, with_files (delete path (files s1)) s1)
        | None => (Throw (system_error "ENOENT" "unlink" path), s1)
        end
    end.

Definition spawnAsync (exe : string) (argv : list string) : M SpawnResult :=
  fun s =>
    let s1 := record (EvSpawn exe argv) s in
    match spawn env exe argv (files s1) with
    | (r, f) => (r, with_files f s1)
    end.

(** Sixteen bytes of the random source, from a position on. *)
Definition draw (from : nat) : list byte :=
  List.map (fun i => randomBytes env (from + i)) (List.seq 0 16).

(** [uuidv4()]: sixteen fresh random bytes, formatted. *)
Definition uuidv4 : M string :=
  fun s => (Return (Uuid.v4 (draw (drawn s))), with_drawn (drawn s + 16) s).

Definition lookup_credentials (m : CredentialMetadata) : M (option Credentials) :=
  fun s => (getCredentialsForPlatform env m, record (EvLookup m) s).

End Primitives.

(** ** [credentials/AndroidCredentials.js] *)

Section AndroidCredentials.
Variable env : Env.

Definition NEWLINE : string :=
  if String.eqb (process_platform env) "win32" then crlf else lf.

Definition javaExecutable : string :=
  if String.eqb (process_platform env) "win32" then "java.exe" else "java".

Definition bold : string -> string := chalk env "bold".

Definition backupExistingCredentials
    (outputPath username experienceName : string)
    (log : option Log) (logSecrets : option bool) : M Secrets.t :=
  let log := log_or_default log in
  let logSecrets := match logSecrets with Some b => b | None => true end in
  let credentialMetadata :=
    {| Js.username := username; Js.experienceName := experienceName;
       platform := "android" |} in
  call log [AStr ("Retreiving Android keystore for " ++ experienceName)] ;;;
  credentials <~ lookup_credentials env credentialMetadata ;;
  match credentials with
  | None =>
      throw (new_Error
               "Unable to fetch credentials for this project. Are you sure they exist?")
  | Some credentials =>
      let keystorePassword := keystorePassword credentials in
      let keyAlias := keystoreAlias credentials in
      let keyPassword := keyPassword credentials in
      let storeBuf := Base64.decode (keystore credentials) in
      call log [AStr ("Writing keystore to " ++ outputPath ++ "...")] ;;;
      writeFileSync env outputPath storeBuf ;;;
      when logSecrets
        (call log [AStr "Done writing keystore to disk."] ;;;
         call log [AStr ("Save these important values as well:" ++ lf ++ lf
                         ++ "  Keystore password: " ++ bold keystorePassword ++ lf
                         ++ "  Key alias:         " ++ bold keyAlias ++ lf
                         ++ "  Key password:      " ++ bold keyPassword ++ lf
                         ++ "  ")] ;;;
         call log [AStr "Keystore saved!"]) ;;;
      ret {| Secrets.keystorePassword := keystorePassword;
             Secrets.keyAlias := keyAlias;
             Secrets.keyPassword := keyPassword |}
  end.

Definition exportCert (keystorePath keystorePassword keyAlias certFile : string)
  : M SpawnResult :=
  spawnAsync env "keytool"
    [ "-exportcert"; "-keystore"; keystorePath; "-storepass"; keystorePassword;
      "-alias"; keyAlias; "-file"; certFile; "-noprompt"; "-storetype"; "JKS" ].

Definition downloadUrl : string :=
  "https://www.gstatic.com/play-apps-publisher-rapid/signing-tool/prod/pepk.jar".

(** The download of the tool: the write stream is created on the
    path, the request is awaited, and its body is piped to the file;
    a failure of either ends the operation with that failure. *)
Definition download_tool (encryptToolPath : string) : M unit :=
  modify (record (EvDownload downloadUrl)) ;;;
  match fs_fault env OpWrite encryptToolPath with
  | Some c => throw (system_error c "open" encryptToolPath)
  | None =>
      modify (fun s => with_files (<[encryptToolPath := []]> (files s)) s) ;;;
      body <~ lift (axios_get env downloadUrl) ;;
      modify (fun s => with_files (<[encryptToolPath := body]> (files s)) s)
  end.

(** The first statement of [exportPrivateKey]: the tool is fetched
    when it is not in the cache. *)
Definition ensure_tool (log : Log) (encryptToolPath : string) : M unit :=
  present <~ existsSync encryptToolPath ;;
  when (negb present)
    (call log [AStr ("Downloading PEPK tool from Google Play to " ++ encryptToolPath)] ;;;
     download_tool encryptToolPath).

(** The promise around the pseudo-terminal child: the two handlers are
    registered, the two passwords are written, and the promise settles
    on the child's first event. *)
Definition pepk_session (log : Log) (argv : list string)
    (keystorePassword keyPassword : string) : M unit :=
  fun s =>
    let s1 := record (EvPtySpawn javaExecutable argv) s in
    match ptySpawn env javaExecutable argv (files s1) with
    | PtyThrows t => (Throw t, s1)
    | PtyChild react =>
        let w1 := keystorePassword ++ NEWLINE in
        let w2 := keyPassword ++ NEWLINE in
        let s2 := record (EvPtyWrite w2) (record (EvPtyWrite w1) s1) in
        match react [w1; w2] with
        | (PtyError err, f) =>
            (call log [AStr "error"; AThrown (ThrownError err)] ;;;
             throw (ThrownError err)) (with_files f s2)
        | (PtyExit exitCode, f) =>
            if (exitCode =? 0)%Z then (Return tt, with_files f s2)
            else (Throw (ThrownNumber exitCode), with_files f s2)
        end
    end.

Definition exportPrivateKey
    (keystorePath keystorePassword keyAlias keyPassword : string)
    (encryptionKey outputPath : string) (log : option Log) : M unit :=
  let log := log_or_default log in
  let encryptToolPath :=
    path_join env (dotExpoHomeDirectory env) "android_tools_pepk.jar" in
  ensure_tool log encryptToolPath ;;;
  try_catch
    (pepk_session log
       [ "-jar"; encryptToolPath; "--keystore"; keystorePath; "--alias"; keyAlias;
         "--output"; outputPath; "--encryptionkey"; encryptionKey ]
       keystorePassword keyPassword ;;;
     call log [AStr ("Exported and encrypted private app signing key to file "
                     ++ outputPath)])
    (fun error =>
       throw (new_Error ("PEPK tool failed with return code " ++ display error))).

Definition googleHash (data : list byte) : string :=
  toUpperCase (hex (Sha1.digest data)).
Definition googleHash256 (data : list byte) : string :=
  toUpperCase (hex (Sha256.digest data)).
Definition fbHash (data : list byte) : string :=
  Base64.encode (Sha1.digest data).
Definition fingerprint (data : list byte) : string :=
  colon_pairs (googleHash data).

(** The body of the [try], the [catch] and the [finally] of
    [logKeystoreHashes]. *)
Definition hashes_body (log : Log)
    (keystorePath keystorePassword keyAlias certFile : string) : M unit :=
  exportCert keystorePath keystorePassword keyAlias certFile ;;;
  data <~ readFileSync env certFile ;;
  call log [AStr ("Google Certificate Fingerprint:     " ++ fingerprint data)] ;;;
  call log [AStr ("Google Certificate Hash (SHA-1):    " ++ googleHash data)] ;;;
  call log [AStr ("Google Certificate Hash (SHA-256):  " ++ googleHash256 data)] ;;;
  call log [AStr ("Facebook Key Hash:                  " ++ fbHash data)].

Definition hashes_catch (log : Log) (err : Thrown) : M unit :=
  when (code_is err "ENOENT")
    (call_warn log [AStr "Are you sure you have keytool installed?"] ;;;
     call log [AStr "keytool is part of openJDK: http://openjdk.java.net/"] ;;;
     call log [AStr "Also make sure that keytool is in your PATH after installation."]) ;;;
  when (truthy (stdout_of err)) (call log [AStr (display_opt (stdout_of err))]) ;;;
  when (truthy (stderr_of err)) (call_error log [AStr (display_opt (stderr_of err))]) ;;;
  throw err.

Definition hashes_finally (log : Log) (certFile : string) : M unit :=
  try_catch (unlinkSync env certFile)
    (fun err => when (negb (code_is err "ENOENT")) (call_error log [AThrown err])).

Definition logKeystoreHashes
    (keystorePath keystorePassword keyAlias : string) (log : option Log) : M unit :=
  let log := log_or_default log in
  let certFile := keystorePath ++ ".cer" in
  try_finally
    (try_catch (hashes_body log keystorePath keystorePassword keyAlias certFile)
               (hashes_catch log))
    (hashes_finally log certFile).

Definition logKeystoreCredentials
    (keystorePassword keyAlias keyPassword : string)
    (title : option string) (log : option Log) : M unit :=
  let title := match title with Some t => t | None => "Keystore credentials" end in
  let log := log_or_default log in
  call log [AStr (title ++ lf
                  ++ "    Keystore password: " ++ bold keystorePassword ++ lf
                  ++ "    Key alias:         " ++ bold keyAlias ++ lf
                  ++ "    Key password:      " ++ bold keyPassword ++ lf
                  ++ "  ")].

Definition createKeystore
    (keystorePath keystorePassword keyAlias keyPassword : string)
    (androidPackage : string) : M SpawnResult :=
  spawnAsync env "keytool"
    [ "-genkey"; "-v"; "-storepass"; keystorePassword; "-keypass"; keyPassword;
      "-keystore"; keystorePath; "-alias"; keyAlias; "-keyalg"; "RSA";
      "-keysize"; "2048"; "-validity"; "10000"; "-dname";
      "CN=" ++ androidPackage ++ ",OU=,O=,L=,S=,C=US" ].

Definition generateUploadKeystore
    (uploadKeystorePath androidPackage experienceName : string) : M Secrets.t :=
  u1 <~ uuidv4 env ;;
  u2 <~ uuidv4 env ;;
  let keystoreData :=
    {| Secrets.keystorePassword := strip_hyphens u1;
       Secrets.keyPassword := strip_hyphens u2;
       Secrets.keyAlias := Base64.encode (buffer_from experienceName) |} in
  createKeystore uploadKeystorePath (Secrets.keystorePassword keystoreData)
    (Secrets.keyAlias keystoreData) (Secrets.keyPassword keystoreData)
    androidPackage ;;;
  ret keystoreData.

End AndroidCredentials.

(** ** [Web.js] *)

Section Web.
Variable env : Env.

Definition dq : string := String "034" EmptyString.

Definition logPreviewNotice : M unit :=
  console_log [] ;;;
  console_log
    [AStr (chalk env "bold.yellow"
             "Web support in Expo is experimental and subject to breaking changes. Do not use this in production yet.")] ;;;
  console_log [].

Definition getWebSetupLogs : string :=
  let appJsonRules :=
    chalk env "white"
      (lf ++ "  " ++ chalk env "whiteBright.bold" "app.json" ++ lf
       ++ "  {" ++ lf
       ++ "    " ++ dq ++ "platforms" ++ dq ++ ": [" ++ lf
       ++ "      " ++ dq ++ "android" ++ dq ++ "," ++ lf
       ++ "      " ++ dq ++ "ios" ++ dq ++ "," ++ lf
       ++ "  " ++ chalk env "green.bold" ("+      " ++ dq ++ "web" ++ dq) ++ lf
       ++ "    ]" ++ lf
       ++ "  }") in
  let packageJsonRules :=
    chalk env "white"
      (lf ++ "  " ++ chalk env "whiteBright.bold" "package.json" ++ lf
       ++ "  {" ++ lf
       ++ "    " ++ dq ++ "dependencies" ++ dq ++ ": {" ++ lf
       ++ "  " ++ chalk env "green.bold"
                    ("+      " ++ dq ++ "react-native-web" ++ dq ++ ": "
                     ++ dq ++ "^0.11.0" ++ dq ++ ",") ++ lf
       ++ "  " ++ chalk env "green.bold"
                    ("+      " ++ dq ++ "react-dom" ++ dq ++ ": "
                     ++ dq ++ "^16.7.0" ++ dq) ++ lf
       ++ "    }," ++ lf
       ++ "    " ++ dq ++ "devDependencies" ++ dq ++ ": {" ++ lf
       ++ "  " ++ chalk env "green.bold"
                    ("+      " ++ dq ++ "babel-preset-expo" ++ dq ++ ": "
                     ++ dq ++ "^5.1.0" ++ dq) ++ lf
       ++ "    }" ++ lf
       ++ "  }") in
  chalk env "red.bold" "Your project is not configured to support web yet!" ++ lf
  ++ "  " ++ packageJsonRules ++ lf
  ++ "    " ++ appJsonRules.

Definition logWebSetup : M unit :=
  global_error [AStr getWebSetupLogs].

(** [exp.platforms.includes('web')]: reading a property of [null] or
    of [undefined] throws a [TypeError]. *)
Definition hasWebSupportAsync (projectRoot : string) : M bool :=
  exp <~ lift (readConfigJson env projectRoot) ;;
  match exp with
  | None => throw (new_TypeError "Cannot read property 'platforms' of null")
  | Some exp =>
      match platforms exp with
      | None => throw (new_TypeError "Cannot read property 'includes' of undefined")
      | Some l =>
          let isWebConfigured := existsb (String.eqb "web") l in
          ret isWebConfigured
      end
  end.

(** [opn(url, { wait: false })]: the call throws, or returns a promise
    that the caller does not await. *)
Definition call_opn (u : string) : M unit :=
  modify (record (EvOpn u)) ;;;
  match opn env u with
  | Some t => throw t
  | None => ret tt
  end.

Definition openProjectAsync (projectRoot : string) : M OpenResult.t :=
  hasWebSupport <~ hasWebSupportAsync projectRoot ;;
  if negb hasWebSupport then
    logWebSetup ;;;
    ret {| OpenResult.success := false; OpenResult.url := None;
           OpenResult.error := None |}
  else
    logPreviewNotice ;;;
    try_catch
      (u <~ lift (constructWebAppUrl env projectRoot) ;;
       call_opn u ;;;
       ret {| OpenResult.success := true; OpenResult.url := Some u;
              OpenResult.error := None |})
      (fun e =>
         global_error [AStr ("Couldn't start project on web: "
                             ++ display_opt (message_of e))] ;;;
         ret {| OpenResult.success := false; OpenResult.url := None;
                OpenResult.error := Some e |}).

End Web.

(** ** A sample world, for running the code *)

Module Sample.

Definition creds (pw kpw : string) : Credentials :=
  {| keystore := "a2V5c3RvcmU="; keystorePassword := pw;
     keyPassword := kpw; keystoreAlias := "QGFsaWNlL2FwcA==" |}.

Definition tool_path : string := "/home/alice/.expo/android_tools_pepk.jar".

(** A world where everything works: colours are off, the credential
    service knows one project, whose record is [c]; [keytool] writes a
    certificate or a keystore; the tool is cached and exits with 0
    when it is given the passwords [pw1] and [pw2]; the project under
    [/web] is configured for the web. *)
Definition env (c : Credentials) : Env :=
  {| process_platform := "linux";
     chalk := fun _ s => s;
     dotExpoHomeDirectory := "/home/alice/.expo";
     path_join := fun a b => a ++ "/" ++ b;
     getCredentialsForPlatform :=
       fun m => if String.eqb (experienceName m) "@alice/app"
                then Return (Some c) else Return None;
     fs_fault := fun _ _ => None;
     spawn := fun exe argv f =>
       (Return {| status := 0; stdout := ""; stderr := "" |},
        match argv with
        | "-exportcert" :: _ => <["ks.jks.cer" := buffer_from "abc"]> f
        | _ => <["upload.jks" := buffer_from "keystore"]> f
        end);
     ptySpawn := fun exe argv f =>
       PtyChild (fun w =>
         if bool_decide (w = ["pw1" ++ lf; "pw2" ++ lf])
         then (PtyExit 0, <["key.pem" := buffer_from "encrypted"]> f)
         else (PtyExit 1, f));
     axios_get := fun _ => Return (buffer_from "jar");
     randomBytes := fun i => byte_of_N (N.of_nat i * 37);
     readConfigJson := fun root =>
       if String.eqb root "/web"
       then Return (Some {| platforms := Some ["ios"; "android"; "web"] |})
       else Return (Some {| platforms := Some ["ios"; "android"] |});
     constructWebAppUrl := fun _ => Return "http://localhost:19006";
     opn := fun _ => None |}.

Definition world : Env := env (creds "pw1" "pw2").

(** The same world, where the certificate file cannot be deleted. *)
Definition locked : Env :=
  {| process_platform := process_platform world;
     chalk := chalk world;
     dotExpoHomeDirectory := dotExpoHomeDirectory world;
     path_join := path_join world;
     getCredentialsForPlatform := getCredentialsForPlatform world;
     fs_fault := fun op _ => match op with OpUnlink => Some "EPERM" | _ => None end;
     spawn := spawn world;
     ptySpawn := ptySpawn world;
     axios_get := axios_get world;
     randomBytes := randomBytes world;
     readConfigJson := readConfigJson world;
     constructWebAppUrl := constructWebAppUrl world;
     opn := opn world |}.

(** The same world, where the browser cannot be started, and one
    where the address cannot be built. *)
Definition no_browser : Env :=
  {| process_platform := process_platform world;
     chalk := chalk world;
     dotExpoHomeDirectory := dotExpoHomeDirectory world;
     path_join := path_join world;
     getCredentialsForPlatform := getCredentialsForPlatform world;
     fs_fault := fs_fault world;
     spawn := spawn world;
     ptySpawn := ptySpawn world;
     axios_get := axios_get world;
     randomBytes := randomBytes world;
     readConfigJson := readConfigJson world;
     constructWebAppUrl := constructWebAppUrl world;
     opn := fun _ => Some (new_Error "spawn EAGAIN") |}.

Definition no_address : Env :=
  {| process_platform := process_platform world;
     chalk := chalk world;
     dotExpoHomeDirectory := dotExpoHomeDirectory world;
     path_join := path_join world;
     getCredentialsForPlatform := getCredentialsForPlatform world;
     fs_fault := fs_fault world;
     spawn := spawn world;
     ptySpawn := ptySpawn world;
     axios_get := axios_get world;
     randomBytes := randomBytes world;
     readConfigJson := readConfigJson world;
     constructWebAppUrl := fun _ => Throw (new_Error "No web server is running");
     opn := opn world |}.

Definition start : State :=
  {| files := {[ tool_path := buffer_from "jar" ]};
     drawn := 0; output := []; trace := [] |}.

End Sample.

(** ** Observations on a run *)

Definition run {A} (m : M A) (s : State) : Outcome A * State := m s.
Definition result {A} (m : M A) (s : State) : Outcome A := fst (m s).
Definition final {A} (m : M A) (s : State) : State := snd (m s).

(** What was written to the pseudo-terminal, in order. *)
Fixpoint pty_writes (t : list Event) : list string :=
  match t with
  | [] => []
  | EvPtyWrite d :: r => d :: pty_writes r
  | _ :: r => pty_writes r
  end.

Definition is_write (e : Event) : bool :=
  match e with EvWriteFile _ _ => true | _ => false end.
Definition is_opn (e : Event) : bool :=
  match e with EvOpn _ => true | _ => false end.

(** The record [backupExistingCredentials] looks up, the object it
    returns, and the lines it prints. *)
Definition metadata (username experienceName : string) : CredentialMetadata :=
  {| Js.username := username; Js.experienceName := experienceName;
     platform := "android" |}.

Definition secrets_of (c : Credentials) : Secrets.t :=
  {| Secrets.keystorePassword := keystorePassword c;
     Secrets.keyAlias := keystoreAlias c;
     Secrets.keyPassword := keyPassword c |}.

Definition info (msg : string) : Line := {| chan := LogCall; args := [AStr msg] |}.

Definition secrets_line (env : Env) (c : Credentials) : Line :=
  info ("Save these important values as well:" ++ lf ++ lf
        ++ "  Keystore password: " ++ bold env (keystorePassword c) ++ lf
        ++ "  Key alias:         " ++ bold env (keystoreAlias c) ++ lf
        ++ "  Key password:      " ++ bold env (keyPassword c) ++ lf
        ++ "  ").

Definition credentials_line (env : Env) (title : string) (s : Secrets.t) : Line :=
  info (title ++ lf
        ++ "    Keystore password: " ++ bold env (Secrets.keystorePassword s) ++ lf
        ++ "    Key alias:         " ++ bold env (Secrets.keyAlias s) ++ lf
        ++ "    Key password:      " ++ bold env (Secrets.keyPassword s) ++ lf
        ++ "  ").

(** Two answers of the credential service that differ at most in the
    two passwords. *)
Definition same_but_passwords (o1 o2 : Outcome (option Credentials)) : Prop :=
  match o1, o2 with
  | Return (Some c1), Return (Some c2) =>
      keystore c1 = keystore c2 /\ keystoreAlias c1 = keystoreAlias c2
  | Return None, Return None => True
  | Throw t1, Throw t2 => t1 = t2
  | _, _ => False
  end.

(** How the tool session ended, read off the pseudo-terminal: the tool
    exited with code 0, or the session failed, by a throw of
    [ptySpawn], an [error] event or another exit code. *)
Inductive SessionEnd :=
| ExitedZero
| Failed (cause : Thrown).

Definition session_end (env : Env) (argv : list string)
    (keystorePassword keyPassword : string) (f : gmap string (list byte)) : SessionEnd :=
  match ptySpawn env (javaExecutable env) argv f with
  | PtyThrows t => Failed t
  | PtyChild react =>
      match fst (react [keystorePassword ++ NEWLINE env; keyPassword ++ NEWLINE env]) with
      | PtyError e => Failed (ThrownError e)
      | PtyExit c => if (c =? 0)%Z then ExitedZero else Failed (ThrownNumber c)
      end
  end.

Definition pepk_argv (env : Env) (keystorePath keyAlias encryptionKey outputPath : string)
  : list string :=
  [ "-jar"; path_join env (dotExpoHomeDirectory env) "android_tools_pepk.jar";
    "--keystore"; keystorePath; "--alias"; keyAlias;
    "--output"; outputPath; "--encryptionkey"; encryptionKey ].

Definition KeyExportError (cause : Thrown) : Thrown :=
  new_Error ("PEPK tool failed with return code " ++ display cause).

(** The world [env] with another credential service. *)
Definition with_service (env : Env)
    (service : CredentialMetadata -> Outcome (option Credentials)) : Env :=
  {| process_platform := process_platform env;
     chalk := chalk env;
     dotExpoHomeDirectory := dotExpoHomeDirectory env;
     path_join := path_join env;
     getCredentialsForPlatform := service;
     fs_fault := fs_fault env;
     spawn := spawn env;
     ptySpawn := ptySpawn env;
     axios_get := axios_get env;
     randomBytes := randomBytes env;
     readConfigJson := readConfigJson env;
     constructWebAppUrl := constructWebAppUrl env;
     opn := opn env |}.

(** The opt-in reading of the secrets invariant, for the backup: unless
    the caller passes [logSecrets = true], two runs that differ only in
    the two passwords print the same lines. *)
Definition secrets_logged_only_on_opt_in : Prop :=
  forall env service1 service2 outputPath username experienceName log logSecrets s,
    same_but_passwords (service1 (metadata username experienceName))
                       (service2 (metadata username experienceName)) ->
    logSecrets <> Some true ->
    output (final (backupExistingCredentials (with_service env service1)
                     outputPath username experienceName log logSecrets) s)
    = output (final (backupExistingCredentials (with_service env service2)
                       outputPath username experienceName log logSecrets) s).

(** A digit of the alphabet decodes to its index and is not the
    padding character. *)
Definition digit_ok (k : N) : bool :=
  match Base64.value (Base64.digit k) with
  | Some v => N.eqb v k && negb (is_char (Base64.digit k) "=")
  | None => false
  end.

(** ** Further observations *)

(** A fingerprint without its colons. *)
Fixpoint strip_colons (s : string) : string :=
  match s with
  | EmptyString => EmptyString
  | String c r => if is_colon c then strip_colons r else String c (strip_colons r)
  end.

(** The padding character of base64, and the four digits a version 4
    identifier may carry in its variant position. *)
Definition is_pad (c : ascii) : bool := is_char c "=".

Definition is_variant_digit (c : ascii) : bool :=
  is_char c "8" || is_char c "9" || is_char c "a" || is_char c "b".

Definition is_download (e : Event) : bool :=
  match e with EvDownload _ => true | _ => false end.

Definition is_pty (e : Event) : bool :=
  match e with EvPtySpawn _ _ | EvPtyWrite _ => true | _ => false end.

(** The arguments [exportCert] and [createKeystore] give to [keytool]. *)
Definition exportcert_argv (keystorePath keystorePassword keyAlias certFile : string)
  : list string :=
  [ "-exportcert"; "-keystore"; keystorePath; "-storepass"; keystorePassword;
    "-alias"; keyAlias; "-file"; certFile; "-noprompt"; "-storetype"; "JKS" ].

Definition genkey_argv (keystorePath androidPackage : string) (r : Secrets.t)
  : list string :=
  [ "-genkey"; "-v"; "-storepass"; Secrets.keystorePassword r;
    "-keypass"; Secrets.keyPassword r; "-keystore"; keystorePath;
    "-alias"; Secrets.keyAlias r; "-keyalg"; "RSA";
    "-keysize"; "2048"; "-validity"; "10000"; "-dname";
    "CN=" ++ androidPackage ++ ",OU=,O=,L=,S=,C=US" ].


Definition with_spawn (env : Env)
    (sp : string -> list string -> gmap string (list byte)
          -> Outcome SpawnResult * gmap string (list byte)) : Env :=
  {| process_platform := process_platform env;
     chalk := chalk env;
     dotExpoHomeDirectory := dotExpoHomeDirectory env;
     path_join := path_join env;
     getCredentialsForPlatform := getCredentialsForPlatform env;
     fs_fault := fs_fault env;
     spawn := sp;
     ptySpawn := ptySpawn env;
     axios_get := axios_get env;
     randomBytes := randomBytes env;
     readConfigJson := readConfigJson env;
     constructWebAppUrl := constructWebAppUrl env;
     opn := opn env |}.

Definition with_config (env : Env) (config : string -> Outcome (option Exp)) : Env :=
  {| process_platform := process_platform env;
     chalk := chalk env;
     dotExpoHomeDirectory := dotExpoHomeDirectory env;
     path_join := path_join env;
     getCredentialsForPlatform := getCredentialsForPlatform env;
     fs_fault := fs_fault env;
     spawn := spawn env;
     ptySpawn := ptySpawn env;
     axios_get := axios_get env;
     randomBytes := randomBytes env;
     readConfigJson := config;
     constructWebAppUrl := constructWebAppUrl env;
     opn := opn env |}.

Definition with_download (env : Env) (get : string -> Outcome (list byte)) : Env :=
  {| process_platform := process_platform env;
     chalk := chalk env;
     dotExpoHomeDirectory := dotExpoHomeDirectory env;
     path_join := path_join env;
     getCredentialsForPlatform := getCredentialsForPlatform env;
     fs_fault := fs_fault env;
     spawn := spawn env;
     ptySpawn := ptySpawn env;
     axios_get := get;
     randomBytes := randomBytes env;
     readConfigJson := readConfigJson env;
     constructWebAppUrl := constructWebAppUrl env;
     opn := opn env |}.

(** The error [spawnAsync] rejects with when [keytool] is not
    installed. *)
Definition keytool_missing : Thrown :=
  ThrownError {| err_name := "Error"; err_message := "spawn keytool ENOENT";
                 err_code := Some "ENOENT"; err_stdout := None; err_stderr := None |}.

(** A log that carries both methods. *)
Definition full_log : Log := {| has_warn := true; has_error := true |}.

(** The lines the [catch] block of [logKeystoreHashes] prints for an
    error, with a log that carries [warn] and [error]. *)
Definition catch_lines (err : Thrown) : list Line :=
  ((if code_is err "ENOENT"
    then [ {| chan := LogWarn;
              args := [AStr "Are you sure you have keytool installed?"] |};
           info "keytool is part of openJDK: http://openjdk.java.net/";
           info "Also make sure that keytool is in your PATH after installation." ]
    else [])
   ++ (if truthy (stdout_of err) then [info (display_opt (stdout_of err))] else [])
   ++ (if truthy (stderr_of err)
       then [ {| chan := LogError; args := [AStr (display_opt (stderr_of err))] |} ]
       else []))%list.

(** The four lines it prints for a certificate. *)
Definition hash_lines (data : list byte) : list Line :=
  [ info ("Google Certificate Fingerprint:     " ++ fingerprint data);
    info ("Google Certificate Hash (SHA-1):    " ++ googleHash data);
    info ("Google Certificate Hash (SHA-256):  " ++ googleHash256 data);
    info ("Facebook Key Hash:                  " ++ fbHash data) ].

(** * Properties *)

Ltac unfold_m :=
  unfold result, final, run, call, call_warn, call_error, console_log,
    global_error, when, try_catch, try_finally, bind, ret, throw, lift,
    modify in *.


(** ** The embedded library functions on known values *)

Example sha1_abc :
  toUpperCase (hex (Sha1.digest (buffer_from "abc")))
  = "A9993E364706816ABA3E25717850C26C9CD0D89D".
Proof. vm_compute. reflexivity. Qed.

Example sha1_two_blocks :
  hex (Sha1.digest
         (buffer_from "abcdbcdecdefdefgefghfghighijhijkijkljklmklmnlmnomnopnopq"))
  = "84983e441c3bd26ebaae4aa1f95129e5e54670f1".
Proof. vm_compute. reflexivity. Qed.

Example sha256_abc :
  hex (Sha256.digest (buffer_from "abc"))
  = "ba7816bf8f01cfea414140de5dae2223b00361a396177a9cb410ff61f20015ad".
Proof. vm_compute. reflexivity. Qed.

Example base64_padding :
  Base64.encode (buffer_from "Man") = "TWFu"
  /\ Base64.encode (buffer_from "Ma") = "TWE="
  /\ Base64.encode (buffer_from "M") = "TQ=="
  /\ Base64.decode "TWE=" = buffer_from "Ma".
Proof. vm_compute. repeat split. Qed.

Example colon_pairs_odd :
  colon_pairs "ABCD" = "AB:CD" /\ colon_pairs "ABC" = "AB:C" /\ colon_pairs "A" = "A".
Proof. vm_compute. repeat split. Qed.

Example uuid_shape :
  Uuid.v4 (List.repeat xff 16) = "ffffffff-ffff-4fff-bfff-ffffffffffff".
Proof. vm_compute. reflexivity. Qed.

(** ** Strings *)

Section StringFacts.

Lemma string_ind2 (P : string -> Prop) :
  P EmptyString ->
  (forall c, P (String c EmptyString)) ->
  (forall c1 c2 r, P r -> P (String c1 (String c2 r))) ->
  forall s, P s.
Proof.
  intros H0 H1 H2.
  fix IH 1. intros [|c1 [|c2 r]]; [exact H0 | apply H1 | apply H2, IH].
Qed.

Lemma hex_length bs : String.length (hex bs) = 2 * List.length bs.
Proof. induction bs as [|b r IH]; simpl; [reflexivity | rewrite IH; lia]. Qed.

Lemma toUpperCase_length s : String.length (toUpperCase s) = String.length s.
Proof. induction s; simpl; congruence. Qed.

Lemma upper_hex_digits b :
  is_upper_hex (upper_char (hex_digit (Byte.to_N b / 16))) = true
  /\ is_upper_hex (upper_char (hex_digit (Byte.to_N b mod 16))) = true.
Proof. destruct b; split; reflexivity. Qed.

Lemma lower_hex_digits b :
  is_lower_hex (hex_digit (Byte.to_N b / 16)) = true
  /\ is_lower_hex (hex_digit (Byte.to_N b mod 16)) = true.
Proof. destruct b; split; reflexivity. Qed.

Lemma upper_hex_all bs : str_all is_upper_hex (toUpperCase (hex bs)) = true.
Proof.
  induction bs as [|b r IH]; simpl; [reflexivity|].
  destruct (upper_hex_digits b) as [-> ->]. exact IH.
Qed.

Lemma lower_hex_all bs : str_all is_lower_hex (hex bs) = true.
Proof.
  induction bs as [|b r IH]; simpl; [reflexivity|].
  destruct (lower_hex_digits b) as [-> ->]. exact IH.
Qed.

Lemma str_all_impl (p q : ascii -> bool) s :
  (forall c, p c = true -> q c = true) -> str_all p s = true -> str_all q s = true.
Proof.
  intros Hpq. induction s as [|c r IH]; simpl; [reflexivity|].
  intros [Hc Hr]%andb_true_iff. rewrite (Hpq _ Hc). simpl. auto.
Qed.

Lemma upper_hex_dot c : is_upper_hex c = true -> dot c = true.
Proof.
  unfold is_upper_hex, dot, is_char. intros H.
  destruct (Ascii.eqb_spec c "010") as [->|_]; [discriminate H|].
  destruct (Ascii.eqb_spec c "013") as [->|_]; [discriminate H|]. reflexivity.
Qed.

Lemma upper_hex_not_colon c : is_upper_hex c = true -> is_colon c = false.
Proof.
  unfold is_upper_hex, is_colon, is_char. intros H.
  destruct (Ascii.eqb_spec ":" c) as [<-|_]; [discriminate H | reflexivity].
Qed.

(** On a string without line terminators the replacement joins the
    pairs, taken from the start, with colons. *)
Lemma colon_pairs_join s :
  str_all dot s = true -> colon_pairs s = join ":" (pairs s).
Proof.
  induction s as [| c | c1 c2 r IH] using string_ind2; [reflexivity .. |].
  intros H. cbn [str_all] in H.
  apply andb_true_iff in H as [H1 H]. apply andb_true_iff in H as [H2 H].
  cbn [colon_pairs pairs]. rewrite H1, H2. cbn [andb].
  destruct r as [|c3 r'].
  - reflexivity.
  - cbn [at_end negb]. rewrite (IH H).
    destruct r' as [|c4 r'']; reflexivity.
Qed.

Lemma colon_pairs_shape s n :
  str_all is_upper_hex s = true ->
  String.length s = 2 * S n ->
  str_count is_colon (colon_pairs s) = n
  /\ str_last (colon_pairs s) <> Some ":"%char
  /\ String.length (colon_pairs s) = 3 * n + 2
  /\ List.length (pairs s) = S n
  /\ Forall (fun p => String.length p = 2) (pairs s).
Proof.
  revert n. induction s as [| c | c1 c2 r IH] using string_ind2; intros n H L.
  - discriminate L.
  - simpl in L. lia.
  - cbn [str_all] in H.
    apply andb_true_iff in H as [H1 H]. apply andb_true_iff in H as [H2 H].
    cbn [colon_pairs pairs].
    rewrite (upper_hex_dot _ H1), (upper_hex_dot _ H2). cbn [andb].
    destruct r as [|c3 r'].
    + simpl in L. assert (n = 0) as -> by lia.
      cbn [colon_pairs at_end negb str_count str_last String.length List.length].
      rewrite (upper_hex_not_colon _ H1), (upper_hex_not_colon _ H2).
      repeat split; try reflexivity.
      * intros E. injection E as ->. discriminate H2.
      * repeat constructor.
    + destruct n as [|n]; [simpl in L; lia|].
      assert (L' : String.length (String c3 r') = 2 * S n) by (simpl in *; lia).
      destruct (IH n H L') as (Hc & Hl & Hn & Hp & Hf).
      cbn [at_end negb str_count String.length List.length].
      rewrite (upper_hex_not_colon _ H1), (upper_hex_not_colon _ H2).
      change (is_colon ":") with true. cbn [Nat.add].
      rewrite Hc, Hn, Hp. repeat split; try lia.
      * cbn [str_last].
        destruct (colon_pairs (String c3 r')) eqn:E; [simpl in Hn; lia | exact Hl].
      * constructor; [reflexivity | exact Hf].
Qed.

Lemma strip_hyphens_hex_byte b k :
  strip_hyphens (hex_byte b k) = hex_byte b (strip_hyphens k).
Proof. destruct b; reflexivity. Qed.

Lemma no_hyphen_hex_byte b k :
  str_count is_hyphen (hex_byte b k) = str_count is_hyphen k.
Proof. destruct b; reflexivity. Qed.

End StringFacts.

(** ** Digests, identifiers and base64 *)

Section CodecFacts.

Lemma sha1_digest_length data : List.length (Sha1.digest data) = 20.
Proof.
  unfold Sha1.digest.
  destruct (Sha1.blocks _ _ _) as [[[[h0 h1] h2] h3] h4]. reflexivity.
Qed.

Lemma byte_of_to_N b : byte_of_N (Byte.to_N b) = b.
Proof. destruct b; reflexivity. Qed.

Lemma to_N_bound b : (Byte.to_N b < 256)%N.
Proof. destruct b; reflexivity. Qed.

Lemma byte_of_N_eq n b : n = Byte.to_N b -> byte_of_N n = b.
Proof. intros ->. apply byte_of_to_N. Qed.

Lemma digits_ok : forallb digit_ok (List.map N.of_nat (List.seq 0 64)) = true.
Proof. vm_compute. reflexivity. Qed.

Lemma digit_value n :
  (n < 64)%N ->
  Base64.value (Base64.digit n) = Some n /\ is_char (Base64.digit n) "=" = false.
Proof.
  intros Hn.
  assert (Hin : In n (List.map N.of_nat (List.seq 0 64))).
  { rewrite <- (N2Nat.id n). apply in_map, in_seq. lia. }
  pose proof (proj1 (forallb_forall _ _) digits_ok n Hin) as H.
  unfold digit_ok in H.
  destruct (Base64.value (Base64.digit n)) as [v|]; [|discriminate H].
  apply andb_true_iff in H as [Hv He].
  apply N.eqb_eq in Hv as ->. apply negb_true_iff in He. auto.
Qed.

Lemma sextets_digit n k :
  (n < 64)%N -> Base64.sextets (String (Base64.digit n) k) = n :: Base64.sextets k.
Proof.
  intros Hn. destruct (digit_value n Hn) as [Hv He].
  cbn [Base64.sextets]. rewrite He, Hv. reflexivity.
Qed.

Lemma list_ind3 {A} (P : list A -> Prop) :
  P [] -> (forall a, P [a]) -> (forall a b, P [a; b]) ->
  (forall a b c r, P r -> P (a :: b :: c :: r)) ->
  forall l, P l.
Proof.
  intros H0 H1 H2 H3.
  fix IH 1. intros [|a [|b [|c r]]]; [exact H0 | apply H1 | apply H2 | apply H3, IH].
Qed.

Ltac nlia := zify; Z.to_euclidean_division_equations; lia.

(** Decoding what the encoder wrote gives the bytes back. *)
Lemma base64_decode_encode bs : Base64.decode (Base64.encode bs) = bs.
Proof.
  unfold Base64.decode.
  induction bs as [| a | a b | a b c r IH] using list_ind3.
  - reflexivity.
  - pose proof (to_N_bound a). cbn [Base64.encode].
    rewrite !sextets_digit by nlia. cbn [Base64.sextets is_char]. simpl Ascii.eqb.
    cbn [Base64.octets]. f_equal. apply byte_of_N_eq. nlia.
  - pose proof (to_N_bound a). pose proof (to_N_bound b). cbn [Base64.encode].
    rewrite !sextets_digit by nlia. cbn [Base64.sextets is_char]. simpl Ascii.eqb.
    cbn [Base64.octets]. f_equal; [|f_equal]; apply byte_of_N_eq; nlia.
  - pose proof (to_N_bound a). pose proof (to_N_bound b). pose proof (to_N_bound c).
    cbn [Base64.encode].
    rewrite !sextets_digit by nlia.
    cbn [Base64.octets]. rewrite IH.
    f_equal; [|f_equal; [|f_equal]]; apply byte_of_N_eq; nlia.
Qed.

Lemma stamp_length i rnds : List.length (Uuid.stamp i rnds) = List.length rnds.
Proof. revert i. induction rnds as [|b r IH]; intros i; simpl; [reflexivity | f_equal; apply IH]. Qed.

Lemma strip_format i bs : strip_hyphens (Uuid.format i bs) = hex bs.
Proof.
  revert i. induction bs as [|b r IH]; intros i; [reflexivity|].
  cbn [Uuid.format hex].
  destruct (_ || _)%bool.
  - cbn [strip_hyphens]. change (is_hyphen "-") with true. cbv iota.
    rewrite strip_hyphens_hex_byte, IH. reflexivity.
  - rewrite strip_hyphens_hex_byte, IH. reflexivity.
Qed.

Lemma hex_no_hyphen bs : str_count is_hyphen (hex bs) = 0.
Proof.
  induction bs as [|b r IH]; [reflexivity|].
  cbn [hex]. rewrite no_hyphen_hex_byte. exact IH.
Qed.

(** A version 4 identifier without its hyphens: thirty-two
    hexadecimal digits. *)
Lemma stripped_uuid rnds :
  List.length rnds = 16 ->
  String.length (strip_hyphens (Uuid.v4 rnds)) = 32
  /\ str_count is_hyphen (strip_hyphens (Uuid.v4 rnds)) = 0
  /\ str_all is_lower_hex (strip_hyphens (Uuid.v4 rnds)) = true.
Proof.
  intros L. unfold Uuid.v4. rewrite strip_format.
  rewrite hex_length, stamp_length, L, hex_no_hyphen, lower_hex_all. auto.
Qed.

End CodecFacts.

(** ** The certificate fingerprint *)

(** C2. For every certificate, the SHA-1 hash that [logKeystoreHashes]
    prints is forty upper-case hexadecimal characters, and the
    fingerprint it prints is that hash cut into pairs from the start and
    joined by colons: twenty pairs, nineteen colons, none at the end. *)
Theorem fingerprint_format (data : list byte) :
  String.length (googleHash data) = 40
  /\ str_all is_upper_hex (googleHash data) = true
  /\ fingerprint data = join ":" (pairs (googleHash data))
  /\ List.length (pairs (googleHash data)) = 20
  /\ Forall (fun p => String.length p = 2) (pairs (googleHash data))
  /\ str_count is_colon (fingerprint data) = 19
  /\ String.length (fingerprint data) = 59
  /\ str_last (fingerprint data) <> Some ":"%char.
Proof.
  assert (L : String.length (googleHash data) = 40).
  { unfold googleHash. rewrite toUpperCase_length, hex_length, sha1_digest_length.
    reflexivity. }
  assert (U : str_all is_upper_hex (googleHash data) = true)
    by apply upper_hex_all.
  destruct (colon_pairs_shape (googleHash data) 19 U L) as (Hc & Hl & Hn & Hp & Hf).
  unfold fingerprint. repeat split; try assumption.
  apply colon_pairs_join. revert U. apply str_all_impl, upper_hex_dot.
Qed.

(** ** [backupExistingCredentials] *)

Section Backup.
Variable env : Env.
Variables outputPath username experienceName : string.
Variable log : option Log.

Let m := metadata username experienceName.
Let backup := backupExistingCredentials env outputPath username experienceName log.

(** The run when the service has no record. *)
Lemma backup_no_record flag s :
  getCredentialsForPlatform env m = Return None ->
  run (backup flag) s
  = (Throw (new_Error
              "Unable to fetch credentials for this project. Are you sure they exist?"),
     record (EvLookup m)
       (emit (info ("Retreiving Android keystore for " ++ experienceName)) s)).
Proof.
  intros H. subst backup m. unfold backupExistingCredentials, lookup_credentials.
  unfold metadata in H. unfold_m. cbn. rewrite H. reflexivity.
Qed.

(** The run when the service has a record and the file can be
    written. *)
Lemma backup_found flag c s :
  getCredentialsForPlatform env m = Return (Some c) ->
  fs_fault env OpWrite outputPath = None ->
  result (backup flag) s = Return (secrets_of c)
  /\ files (final (backup flag) s)
     = <[outputPath := Base64.decode (keystore c)]> (files s)
  /\ trace (final (backup flag) s)
     = (trace s ++ [EvLookup m; EvWriteFile outputPath (Base64.decode (keystore c))])%list
  /\ output (final (backup flag) s)
     = (output s
        ++ [info ("Retreiving Android keystore for " ++ experienceName);
            info ("Writing keystore to " ++ outputPath ++ "...")]
        ++ (if match flag with Some b => b | None => true end
            then [info "Done writing keystore to disk."; secrets_line env c;
                  info "Keystore saved!"]
            else []))%list.
Proof.
  intros H W. subst backup m.
  unfold backupExistingCredentials, lookup_credentials, writeFileSync.
  unfold metadata in H. unfold_m. cbn. rewrite H. cbn. rewrite W.
  destruct flag as [[|]|]; cbn; rewrite <- ?app_assoc; auto.
Qed.

(** The lines printed when the caller passes [logSecrets = false]. *)
Lemma backup_quiet_output s :
  output (final (backup (Some false)) s)
  = (output s
     ++ info ("Retreiving Android keystore for " ++ experienceName)
     :: match getCredentialsForPlatform env m with
        | Return (Some _) => [info ("Writing keystore to " ++ outputPath ++ "...")]
        | _ => []
        end)%list.
Proof.
  subst backup m.
  unfold backupExistingCredentials, lookup_credentials, writeFileSync, metadata.
  unfold_m. cbn.
  destruct (getCredentialsForPlatform env _) as [[c|]|t]; cbn; try reflexivity.
  destruct (fs_fault env OpWrite outputPath); cbn; rewrite <- ?app_assoc; reflexivity.
Qed.

End Backup.

(** C9. When the credential service has no record for the project, the
    backup throws before any write: the files are as they were, the
    only call made outside is the lookup, and no secret is returned. *)
Theorem backup_without_record_is_atomic
    (env : Env) (outputPath username experienceName : string)
    (log : option Log) (logSecrets : option bool) (s : State) :
  getCredentialsForPlatform env (metadata username experienceName) = Return None ->
  let op := backupExistingCredentials env outputPath username experienceName
              log logSecrets in
  result op s
  = Throw (new_Error
             "Unable to fetch credentials for this project. Are you sure they exist?")
  /\ files (final op s) = files s
  /\ trace (final op s) = (trace s ++ [EvLookup (metadata username experienceName)])%list
  /\ List.filter is_write (trace (final op s)) = List.filter is_write (trace s)
  /\ output (final op s)
     = (output s ++ [info ("Retreiving Android keystore for " ++ experienceName)])%list.
Proof.
  intros H op. unfold result, final.
  pose proof (backup_no_record env outputPath username experienceName log logSecrets s H)
    as R.
  unfold run in R. subst op. rewrite R. cbn.
  repeat split. rewrite List.filter_app. cbn. apply app_nil_r.
Qed.

Lemma backup_without_record_is_atomic_witness :
  let op := backupExistingCredentials Sample.world "out.jks" "alice" "@alice/other"
              None None in
  result op Sample.start
  = Throw (new_Error
             "Unable to fetch credentials for this project. Are you sure they exist?")
  /\ files (final op Sample.start) = files Sample.start
  /\ trace (final op Sample.start)
     = (trace Sample.start ++ [EvLookup (metadata "alice" "@alice/other")])%list
  /\ List.filter is_write (trace (final op Sample.start))
     = List.filter is_write (trace Sample.start)
  /\ output (final op Sample.start)
     = (output Sample.start ++ [info "Retreiving Android keystore for @alice/other"])%list.
Proof.
  apply (backup_without_record_is_atomic Sample.world "out.jks" "alice" "@alice/other"
           None None Sample.start).
  reflexivity.
Defined.

(** C5. When the record exists (and the keystore file can be written),
    the backup returns the keystore password, the key alias and the key
    password of the record, whatever [logSecrets] is; and in every
    world the outcome is the same for any two values of the flag. *)
Theorem backup_returns_secrets
    (env : Env) (outputPath username experienceName : string)
    (log : option Log) (s : State) :
  (forall c logSecrets,
      getCredentialsForPlatform env (metadata username experienceName)
      = Return (Some c) ->
      fs_fault env OpWrite outputPath = None ->
      result (backupExistingCredentials env outputPath username experienceName
                log logSecrets) s
      = Return {| Secrets.keystorePassword := keystorePassword c;
                  Secrets.keyAlias := keystoreAlias c;
                  Secrets.keyPassword := keyPassword c |})
  /\ (forall flag1 flag2,
         result (backupExistingCredentials env outputPath username experienceName
                   log flag1) s
         = result (backupExistingCredentials env outputPath username experienceName
                     log flag2) s).
Proof.
  split.
  - intros c flag H W.
    apply (backup_found env outputPath username experienceName log flag c s H W).
  - intros f1 f2.
    unfold backupExistingCredentials, lookup_credentials, writeFileSync.
    unfold_m. cbn.
    destruct (getCredentialsForPlatform env _) as [[c|]|t]; cbn; try reflexivity.
    destruct (fs_fault env OpWrite outputPath); cbn;
      destruct f1 as [[|]|], f2 as [[|]|]; reflexivity.
Qed.

Lemma backup_returns_secrets_witness :
  result (backupExistingCredentials Sample.world "out.jks" "alice" "@alice/app"
            None (Some false)) Sample.start
  = Return {| Secrets.keystorePassword := "pw1";
              Secrets.keyAlias := "QGFsaWNlL2FwcA==";
              Secrets.keyPassword := "pw2" |}.
Proof.
  apply (proj1 (backup_returns_secrets Sample.world "out.jks" "alice" "@alice/app"
                  None Sample.start) (Sample.creds "pw1" "pw2") (Some false));
    reflexivity.
Defined.

(** C6. When the record holds the base64 encoding of a keystore, the
    backup decodes it and writes it, and reading the output file
    afterwards gives the bytes of that keystore. *)
Theorem backup_keystore_roundtrip
    (env : Env) (outputPath username experienceName : string)
    (log : option Log) (logSecrets : option bool) (s : State)
    (c : Credentials) (blob : list byte) :
  getCredentialsForPlatform env (metadata username experienceName) = Return (Some c) ->
  keystore c = Base64.encode blob ->
  fs_fault env OpWrite outputPath = None ->
  fs_fault env OpRead outputPath = None ->
  let after := final (backupExistingCredentials env outputPath username experienceName
                        log logSecrets) s in
  Base64.decode (keystore c) = blob
  /\ files after !! outputPath = Some blob
  /\ result (readFileSync env outputPath) after = Return blob.
Proof.
  intros H E W R after.
  destruct (backup_found env outputPath username experienceName log logSecrets c s H W)
    as (_ & F & _).
  assert (D : Base64.decode (keystore c) = blob)
    by (rewrite E; apply base64_decode_encode).
  assert (L : files after !! outputPath = Some blob).
  { subst after. rewrite F, D. apply lookup_insert_eq. }
  repeat split; try assumption.
  unfold result, readFileSync. cbn. rewrite R, L. reflexivity.
Qed.

Lemma backup_keystore_roundtrip_witness :
  let after := final (backupExistingCredentials Sample.world "out.jks" "alice"
                        "@alice/app" None None) Sample.start in
  Base64.decode "a2V5c3RvcmU=" = buffer_from "keystore"
  /\ files after !! "out.jks" = Some (buffer_from "keystore")
  /\ result (readFileSync Sample.world "out.jks") after = Return (buffer_from "keystore").
Proof.
  apply (backup_keystore_roundtrip Sample.world "out.jks" "alice" "@alice/app" None None
           Sample.start (Sample.creds "pw1" "pw2") (buffer_from "keystore"));
    reflexivity.
Defined.

(** ** Secrets in the log *)

(** C1, as stated, fails: [logSecrets] defaults to [true], so a caller
    who passes no flag gets the two passwords printed, and two such runs
    that differ only in the passwords print different lines. *)
Lemma secrets_logged_by_default : ~ secrets_logged_only_on_opt_in.
Proof.
  intros H.
  specialize (H Sample.world
                (fun _ => Return (Some (Sample.creds "pw1" "pw2")))
                (fun _ => Return (Some (Sample.creds "hunter2" "swordfish")))
                "out.jks" "alice" "@alice/app" None None Sample.start).
  cbn in H. specialize (H (conj eq_refl eq_refl)).
  assert (N : @None bool <> Some true) by discriminate.
  specialize (H N). vm_compute in H. discriminate H.
Qed.

(** C1, amended. [backupExistingCredentials] prints the two passwords
    when [logSecrets] is [true] or omitted; when the caller passes
    [logSecrets = false], two runs that differ only in the passwords
    print the same lines. [logKeystoreCredentials] has no flag and
    always prints them. *)
Theorem secrets_logged_unless_opted_out
    (env : Env) (service1 service2 : CredentialMetadata -> Outcome (option Credentials))
    (outputPath username experienceName : string) (log : option Log) (s : State) :
  same_but_passwords (service1 (metadata username experienceName))
                     (service2 (metadata username experienceName)) ->
  output (final (backupExistingCredentials (with_service env service1)
                   outputPath username experienceName log (Some false)) s)
  = output (final (backupExistingCredentials (with_service env service2)
                     outputPath username experienceName log (Some false)) s)
  /\ (forall c logSecrets,
         service1 (metadata username experienceName) = Return (Some c) ->
         fs_fault env OpWrite outputPath = None ->
         logSecrets <> Some false ->
         In (secrets_line env c)
            (output (final (backupExistingCredentials (with_service env service1)
                              outputPath username experienceName log logSecrets) s)))
  /\ (forall keystorePassword keyAlias keyPassword title,
         output (final (logKeystoreCredentials env keystorePassword keyAlias keyPassword
                          (Some title) log) s)
         = (output s
            ++ [credentials_line env title
                  {| Secrets.keystorePassword := keystorePassword;
                     Secrets.keyAlias := keyAlias;
                     Secrets.keyPassword := keyPassword |}])%list).
Proof.
  intros Same. split; [|split].
  - rewrite !backup_quiet_output. cbn [getCredentialsForPlatform with_service].
    unfold same_but_passwords in Same.
    destruct (service1 _) as [[c1|]|t1], (service2 _) as [[c2|]|t2];
      try contradiction; reflexivity.
  - intros c flag H W F.
    destruct (backup_found (with_service env service1) outputPath username
                experienceName log flag c s H W) as (_ & _ & _ & O).
    rewrite O.
    assert (B : match flag with Some b => b | None => true end = true)
      by (destruct flag as [[|]|]; congruence).
    rewrite B. apply in_or_app. right. apply in_or_app. right.
    right. left. reflexivity.
  - intros. reflexivity.
Qed.

Lemma secrets_logged_unless_opted_out_witness :
  output (final (backupExistingCredentials
                   (with_service Sample.world
                      (fun _ => Return (Some (Sample.creds "pw1" "pw2"))))
                   "out.jks" "alice" "@alice/app" None (Some false)) Sample.start)
  = output (final (backupExistingCredentials
                     (with_service Sample.world
                        (fun _ => Return (Some (Sample.creds "hunter2" "swordfish"))))
                     "out.jks" "alice" "@alice/app" None (Some false)) Sample.start)
  /\ In (secrets_line Sample.world (Sample.creds "pw1" "pw2"))
        (output (final (backupExistingCredentials
                          (with_service Sample.world
                             (fun _ => Return (Some (Sample.creds "pw1" "pw2"))))
                          "out.jks" "alice" "@alice/app" None None) Sample.start)).
Proof.
  assert (Same : same_but_passwords
                   (Return (Some (Sample.creds "pw1" "pw2")))
                   (Return (Some (Sample.creds "hunter2" "swordfish"))))
    by (split; reflexivity).
  destruct (secrets_logged_unless_opted_out Sample.world
              (fun _ => Return (Some (Sample.creds "pw1" "pw2")))
              (fun _ => Return (Some (Sample.creds "hunter2" "swordfish")))
              "out.jks" "alice" "@alice/app" None Sample.start Same)
    as (Quiet & Loud & _).
  split; [exact Quiet|].
  apply (Loud (Sample.creds "pw1" "pw2") None eq_refl eq_refl). discriminate.
Defined.

(** ** [exportPrivateKey] *)

Section ExportKey.
Variable env : Env.
Variables keystorePath keystorePassword keyAlias keyPassword : string.
Variables encryptionKey outputPath : string.
Variable log : option Log.

Let tool := path_join env (dotExpoHomeDirectory env) "android_tools_pepk.jar".
Let argv := pepk_argv env keystorePath keyAlias encryptionKey outputPath.
Let w1 := keystorePassword ++ NEWLINE env.
Let w2 := keyPassword ++ NEWLINE env.
Let export :=
  exportPrivateKey env keystorePath keystorePassword keyAlias keyPassword
    encryptionKey outputPath log.

Lemma pty_writes_app t u : pty_writes (t ++ u) = (pty_writes t ++ pty_writes u)%list.
Proof.
  induction t as [|e t IH]; [reflexivity|].
  destruct e; cbn; rewrite ?IH; reflexivity.
Qed.

(** A cached tool is not fetched. *)
Lemma ensure_tool_cached l s :
  is_Some (files s !! tool) -> run (ensure_tool env l tool) s = (Return tt, s).
Proof.
  intros H. unfold ensure_tool, existsSync. unfold_m.
  rewrite bool_decide_eq_true_2 by exact H. reflexivity.
Qed.

(** Fetching the tool writes nothing to a pseudo-terminal. *)
Lemma ensure_tool_writes l s :
  pty_writes (trace (final (ensure_tool env l tool) s)) = pty_writes (trace s).
Proof.
  unfold ensure_tool, existsSync, download_tool. unfold_m. cbn.
  destruct (bool_decide _); cbn; [reflexivity|].
  destruct (fs_fault env OpWrite tool); cbn.
  - rewrite pty_writes_app. cbn. apply app_nil_r.
  - destruct (axios_get env downloadUrl); cbn;
      rewrite pty_writes_app; cbn; apply app_nil_r.
Qed.

(** When the tool cannot be fetched, that failure is the outcome. *)
Lemma export_without_tool s t s1 :
  run (ensure_tool env (log_or_default log) tool) s = (Throw t, s1) ->
  run export s = (Throw t, s1).
Proof.
  intros H. subst export tool. unfold exportPrivateKey, run in *. unfold bind at 1.
  rewrite H. reflexivity.
Qed.

(** The run once the tool is there. *)
Lemma export_with_tool s s1 :
  run (ensure_tool env (log_or_default log) tool) s = (Return tt, s1) ->
  run export s
  = let s2 := record (EvPtySpawn (javaExecutable env) argv) s1 in
    match ptySpawn env (javaExecutable env) argv (files s1) with
    | PtyThrows t => (Throw (KeyExportError t), s2)
    | PtyChild react =>
        let s3 := record (EvPtyWrite w2) (record (EvPtyWrite w1) s2) in
        match react [w1; w2] with
        | (PtyError e, f) =>
            (Throw (KeyExportError (ThrownError e)),
             emit {| chan := LogCall; args := [AStr "error"; AThrown (ThrownError e)] |}
               (with_files f s3))
        | (PtyExit c, f) =>
            if (c =? 0)%Z
            then (Return tt,
                  emit (info ("Exported and encrypted private app signing key to file "
                              ++ outputPath)) (with_files f s3))
            else (Throw (KeyExportError (ThrownNumber c)), with_files f s3)
        end
    end.
Proof.
  intros H. subst export tool argv w1 w2.
  unfold exportPrivateKey, run in *. unfold bind at 1. rewrite H.
  unfold pepk_session, pepk_argv, KeyExportError. unfold_m. cbn.
  destruct (ptySpawn env _ _ _) as [t|react]; [reflexivity|].
  destruct (react _) as [[e|c] f]; [reflexivity|].
  destruct (c =? 0)%Z; reflexivity.
Qed.

End ExportKey.

(** C4. A successful export has written exactly two lines to the tool
    session: the keystore password and then the key password, each
    followed by the line terminator of the platform. *)
Theorem export_writes_two_lines
    (env : Env) (keystorePath keystorePassword keyAlias keyPassword : string)
    (encryptionKey outputPath : string) (log : option Log) (s : State) :
  let export := exportPrivateKey env keystorePath keystorePassword keyAlias keyPassword
                  encryptionKey outputPath log in
  result export s = Return tt ->
  pty_writes (trace (final export s))
  = (pty_writes (trace s)
     ++ [(keystorePassword ++ NEWLINE env)%string;
         (keyPassword ++ NEWLINE env)%string])%list
  /\ (process_platform env = "win32" -> NEWLINE env = crlf)
  /\ (process_platform env <> "win32" -> NEWLINE env = lf).
Proof.
  intros export R. split; [|split].
  - pose proof (ensure_tool_writes env (log_or_default log) s) as W.
    unfold result, final in *.
    destruct (run (ensure_tool env (log_or_default log)
                     (path_join env (dotExpoHomeDirectory env) "android_tools_pepk.jar")) s)
      as [[[]|t] s1] eqn:E; unfold run in E; rewrite E in W; cbn in W.
    + subst export. unfold run in *.
      pose proof (export_with_tool env keystorePath keystorePassword keyAlias keyPassword
                    encryptionKey outputPath log s s1 E) as X.
      unfold run in X. rewrite X in *. clear X. cbn zeta in *.
      destruct (ptySpawn env _ _ _) as [t|react]; [discriminate R|].
      destruct (react _) as [[e|c] f]; [discriminate R|].
      destruct (c =? 0)%Z; [|discriminate R].
      cbn. rewrite !pty_writes_app, W. cbn. rewrite <- !app_assoc. reflexivity.
    + subst export.
      pose proof (export_without_tool env keystorePath keystorePassword keyAlias
                    keyPassword encryptionKey outputPath log s t s1 E) as X.
      unfold run in X. rewrite X in R. discriminate R.
  - intros P. unfold NEWLINE. rewrite P. reflexivity.
  - intros P. unfold NEWLINE. apply String.eqb_neq in P. rewrite P. reflexivity.
Qed.

Lemma export_writes_two_lines_witness :
  pty_writes (trace (final (exportPrivateKey Sample.world "ks.jks" "pw1" "alias" "pw2"
                              "ek" "key.pem" None) Sample.start))
  = ["pw1" ++ lf; "pw2" ++ lf].
Proof.
  apply (export_writes_two_lines Sample.world "ks.jks" "pw1" "alias" "pw2" "ek" "key.pem"
           None Sample.start).
  reflexivity.
Defined.

(** C8. Once the tool is in the cache, the export succeeds exactly when
    the tool exits with code 0, leaving the files as the tool left
    them; and it fails exactly when the session fails, with an error
    whose message carries the exit code or the cause. When the tool
    cannot be fetched no session is opened, and the failure of the
    fetch is the outcome. *)
Theorem export_fails_as_session_fails
    (env : Env) (keystorePath keystorePassword keyAlias keyPassword : string)
    (encryptionKey outputPath : string) (log : option Log) (s : State) :
  let export := exportPrivateKey env keystorePath keystorePassword keyAlias keyPassword
                  encryptionKey outputPath log in
  let tool := path_join env (dotExpoHomeDirectory env) "android_tools_pepk.jar" in
  let argv := pepk_argv env keystorePath keyAlias encryptionKey outputPath in
  (forall s1,
      run (ensure_tool env (log_or_default log) tool) s = (Return tt, s1) ->
      let ending := session_end env argv keystorePassword keyPassword (files s1) in
      (result export s = Return tt <-> ending = ExitedZero)
      /\ (forall cause, ending = Failed cause ->
                        result export s = Throw (KeyExportError cause))
      /\ (forall t, result export s = Throw t ->
                    exists cause, ending = Failed cause /\ t = KeyExportError cause)
      /\ (result export s = Return tt ->
          exists react,
            ptySpawn env (javaExecutable env) argv (files s1) = PtyChild react
            /\ files (final export s)
               = snd (react [keystorePassword ++ NEWLINE env;
                             keyPassword ++ NEWLINE env])))
  /\ (forall t s1,
         run (ensure_tool env (log_or_default log) tool) s = (Throw t, s1) ->
         run export s = (Throw t, s1)).
Proof.
  intros export tool argv. split.
  - intros s1 E ending.
    pose proof (export_with_tool env keystorePath keystorePassword keyAlias keyPassword
                  encryptionKey outputPath log s s1 E) as X.
    subst export ending. unfold result, final, run in *. rewrite X. clear X.
    unfold session_end. subst argv. cbn zeta.
    destruct (ptySpawn env _ _ _) as [t|react].
    { cbn. repeat split; try discriminate.
      - intros c [= <-]. reflexivity.
      - intros t' [= <-]. eauto. }
    destruct (react _) as [[e|c] f] eqn:Er; cbn [fst snd].
    { repeat split; try discriminate.
      - intros c [= <-]. reflexivity.
      - intros t' [= <-]. eauto. }
    destruct (c =? 0)%Z; cbn [fst snd].
    + repeat split; try discriminate. intros _. exists react.
      split; [reflexivity | rewrite Er; reflexivity].
    + repeat split; try discriminate.
      * intros c' [= <-]. reflexivity.
      * intros t' [= <-]. eauto.
  - intros t s1 E. subst export.
    apply (export_without_tool env keystorePath keystorePassword keyAlias keyPassword
             encryptionKey outputPath log s t s1 E).
Qed.

Lemma export_fails_as_session_fails_witness :
  (result (exportPrivateKey Sample.world "ks.jks" "pw1" "alias" "pw2" "ek" "key.pem" None)
     Sample.start = Return tt
   <-> session_end Sample.world (pepk_argv Sample.world "ks.jks" "alias" "ek" "key.pem")
         "pw1" "pw2" (files Sample.start) = ExitedZero)
  /\ result (exportPrivateKey Sample.world "ks.jks" "pw1" "alias" "wrong" "ek" "key.pem"
               None) Sample.start
     = Throw (KeyExportError (ThrownNumber 1)).
Proof.
  split.
  - apply (proj1 (export_fails_as_session_fails Sample.world "ks.jks" "pw1" "alias" "pw2"
                    "ek" "key.pem" None Sample.start) Sample.start eq_refl).
  - apply (proj1 (export_fails_as_session_fails Sample.world "ks.jks" "pw1" "alias"
                    "wrong" "ek" "key.pem" None Sample.start) Sample.start eq_refl).
    reflexivity.
Defined.

(** ** [logKeystoreHashes] *)

Section Hashes.
Variable env : Env.
Variables keystorePath keystorePassword keyAlias : string.
Variable log : option Log.

Let certFile := keystorePath ++ ".cer".
Let L := log_or_default log.
Let attempt :=
  try_catch (hashes_body env L keystorePath keystorePassword keyAlias certFile)
            (hashes_catch L).
Let hashes := logKeystoreHashes env keystorePath keystorePassword keyAlias log.

(** The [finally] block, case by case. *)
Lemma finally_run s :
  run (hashes_finally env L certFile) s
  = let s1 := record (EvUnlink certFile) s in
    match fs_fault env OpUnlink certFile with
    | Some c =>
        if String.eqb c "ENOENT" then (Return tt, s1)
        else if has_error L
             then (Return tt,
                   emit {| chan := LogError;
                           args := [AThrown (system_error c "unlink" certFile)] |} s1)
             else (Throw (new_TypeError "log.error is not a function"), s1)
    | None =>
        match files s !! certFile with
        | Some _ => (Return tt, with_files (delete certFile (files s)) s1)
        | None => (Return tt, s1)
        end
    end.
Proof.
  unfold hashes_finally, unlinkSync. unfold_m. cbn.
  destruct (fs_fault env OpUnlink certFile) as [c|]; cbn.
  - unfold code_is. cbn. destruct (String.eqb c "ENOENT"); cbn; [reflexivity|].
    destruct (has_error L); reflexivity.
  - destruct (files s !! certFile); reflexivity.
Qed.

Lemma hashes_run s :
  run hashes s
  = match run (hashes_finally env L certFile) (snd (run attempt s)) with
    | (Return _, s2) => (fst (run attempt s), s2)
    | (Throw t, s2) => (Throw t, s2)
    end.
Proof.
  subst hashes attempt L certFile. unfold logKeystoreHashes, try_finally, run.
  destruct (try_catch _ _ s) as [r s1]. reflexivity.
Qed.

(** When the certificate is exported and read, its four hashes are
    printed. *)
Lemma hashes_printed s x f data :
  spawn env "keytool"
    [ "-exportcert"; "-keystore"; keystorePath; "-storepass"; keystorePassword;
      "-alias"; keyAlias; "-file"; certFile; "-noprompt"; "-storetype"; "JKS" ]
    (files s) = (Return x, f) ->
  fs_fault env OpRead certFile = None ->
  f !! certFile = Some data ->
  result attempt s = Return tt
  /\ output (final attempt s)
     = (output s
        ++ [info ("Google Certificate Fingerprint:     " ++ fingerprint data);
            info ("Google Certificate Hash (SHA-1):    " ++ googleHash data);
            info ("Google Certificate Hash (SHA-256):  " ++ googleHash256 data);
            info ("Facebook Key Hash:                  " ++ fbHash data)])%list.
Proof.
  intros S R F. subst attempt certFile.
  unfold hashes_body, exportCert, spawnAsync, readFileSync. unfold_m.
  cbn [with_files record emit files drawn output trace fst snd].
  rewrite S. cbn [with_files record emit files drawn output trace fst snd].
  rewrite R, F. cbn [with_files record emit files drawn output trace fst snd].
  rewrite <- !app_assoc. split; reflexivity.
Qed.

(** On every exit path the last call made outside is the deletion of
    the certificate file. *)
Lemma cleanup_attempted s :
  trace (final hashes s) = (trace (final attempt s) ++ [EvUnlink certFile])%list.
Proof.
  unfold final. change (hashes s) with (run hashes s). rewrite hashes_run, finally_run.
  unfold run. destruct (attempt s) as [r s1]. cbn.
  destruct (fs_fault env OpUnlink certFile) as [c|].
  - destruct (String.eqb c "ENOENT"); [reflexivity|].
    destruct (has_error L); reflexivity.
  - destruct (files s1 !! certFile); reflexivity.
Qed.

(** When the deletion is not refused, no certificate file is left. *)
Lemma cleanup_leaves_no_file s :
  fs_fault env OpUnlink certFile = None -> files (final hashes s) !! certFile = None.
Proof.
  intros U. unfold final. change (hashes s) with (run hashes s).
  rewrite hashes_run, finally_run, U.
  unfold run. destruct (attempt s) as [r s1]. cbn.
  destruct (files s1 !! certFile) eqn:E; cbn; [apply lookup_delete_eq | exact E].
Qed.

(** With a [log] that carries [error], the cleanup never changes the
    outcome: a missing file is passed over in silence, any other
    failure is printed. *)
Lemma cleanup_keeps_result s :
  has_error L = true ->
  result hashes s = result attempt s
  /\ output (final hashes s)
     = (output (final attempt s)
        ++ match fs_fault env OpUnlink certFile with
           | Some c =>
               if String.eqb c "ENOENT" then []
               else [{| chan := LogError;
                        args := [AThrown (system_error c "unlink" certFile)] |}]
           | None => []
           end)%list.
Proof.
  intros E. unfold result, final. change (hashes s) with (run hashes s).
  rewrite hashes_run, finally_run, E.
  unfold run. destruct (attempt s) as [r s1]. cbn.
  destruct (fs_fault env OpUnlink certFile) as [c|].
  - destruct (String.eqb c "ENOENT"); cbn; rewrite ?app_nil_r; auto.
  - destruct (files s1 !! certFile); cbn; rewrite ?app_nil_r; auto.
Qed.

(** A missing file is passed over whatever the [log]. *)
Lemma cleanup_missing_file s :
  fs_fault env OpUnlink certFile = None ->
  result hashes s = result attempt s
  /\ output (final hashes s) = output (final attempt s).
Proof.
  intros U. unfold result, final. change (hashes s) with (run hashes s).
  rewrite hashes_run, finally_run, U.
  unfold run. destruct (attempt s) as [r s1]. cbn.
  destruct (files s1 !! certFile); cbn; auto.
Qed.

End Hashes.

(** C3, at the input where the code departs from it. The certificate
    is exported and its hashes are printed; the deletion of the
    certificate file is refused with [EPERM]; the caller passed no
    [log], and the default [log] has no [error] method: the cleanup
    error is not printed, and the call that was to print it throws, so
    that the operation fails although its body had succeeded. *)
Theorem cleanup_error_with_default_log :
  let certFile := "ks.jks.cer" in
  let body := try_catch (hashes_body Sample.locked default_log "ks.jks" "pw1" "alias"
                           certFile)
                        (hashes_catch default_log) in
  let hashes := logKeystoreHashes Sample.locked "ks.jks" "pw1" "alias" None in
  result body Sample.start = Return tt
  /\ trace (final hashes Sample.start)
     = (trace (final body Sample.start) ++ [EvUnlink certFile])%list
  /\ result hashes Sample.start
     = Throw (new_TypeError "log.error is not a function")
  /\ output (final hashes Sample.start) = output (final body Sample.start).
Proof. vm_compute. repeat split. Qed.

(** ** [generateUploadKeystore] *)

Section Upload.
Variable env : Env.
Variables uploadKeystorePath androidPackage experienceName : string.

Lemma draw_length from : List.length (draw env from) = 16.
Proof. reflexivity. Qed.

Let keystoreData (s : State) : Secrets.t :=
  {| Secrets.keystorePassword := strip_hyphens (Uuid.v4 (draw env (drawn s)));
     Secrets.keyAlias := Base64.encode (buffer_from experienceName);
     Secrets.keyPassword := strip_hyphens (Uuid.v4 (draw env (drawn s + 16))) |}.

Let argv (r : Secrets.t) : list string :=
  [ "-genkey"; "-v"; "-storepass"; Secrets.keystorePassword r;
    "-keypass"; Secrets.keyPassword r; "-keystore"; uploadKeystorePath;
    "-alias"; Secrets.keyAlias r; "-keyalg"; "RSA";
    "-keysize"; "2048"; "-validity"; "10000"; "-dname";
    "CN=" ++ androidPackage ++ ",OU=,O=,L=,S=,C=US" ].

(** The run: two identifiers are drawn, [keytool] is called, and its
    failure, if any, is the outcome. *)
Lemma upload_run s :
  run (generateUploadKeystore env uploadKeystorePath androidPackage experienceName) s
  = let r := keystoreData s in
    let s1 := record (EvSpawn "keytool" (argv r)) (with_drawn (drawn s + 16 + 16) s) in
    match spawn env "keytool" (argv r) (files s) with
    | (Return _, f) => (Return r, with_files f s1)
    | (Throw t, f) => (Throw t, with_files f s1)
    end.
Proof.
  subst keystoreData argv.
  unfold generateUploadKeystore, createKeystore, spawnAsync, uuidv4, run.
  unfold bind, ret.
  cbv beta iota delta [Secrets.keystorePassword Secrets.keyAlias Secrets.keyPassword
                       with_drawn with_files record files drawn output trace fst snd].
  destruct (spawn env _ _ _) as [[x|t] f]; reflexivity.
Qed.

(** What the operation returns, when [keytool] succeeds. *)
Lemma upload_returns s r :
  result (generateUploadKeystore env uploadKeystorePath androidPackage experienceName) s
  = Return r ->
  r = {| Secrets.keystorePassword := strip_hyphens (Uuid.v4 (draw env (drawn s)));
         Secrets.keyAlias := Base64.encode (buffer_from experienceName);
         Secrets.keyPassword := strip_hyphens (Uuid.v4 (draw env (drawn s + 16))) |}.
Proof.
  unfold result.
  change (generateUploadKeystore env uploadKeystorePath androidPackage experienceName s)
    with (run (generateUploadKeystore env uploadKeystorePath androidPackage
                 experienceName) s).
  rewrite upload_run. cbv zeta.
  destruct (spawn env _ _ _) as [[x|t] f]; cbn [fst]; [|discriminate].
  intros [= <-]. reflexivity.
Qed.

(** It returns exactly when [keytool] does. *)
Lemma upload_total s :
  match fst (spawn env "keytool" (argv (keystoreData s)) (files s)) with
  | Return _ =>
      result (generateUploadKeystore env uploadKeystorePath androidPackage
                experienceName) s = Return (keystoreData s)
  | Throw t =>
      result (generateUploadKeystore env uploadKeystorePath androidPackage
                experienceName) s = Throw t
  end.
Proof.
  unfold result.
  change (generateUploadKeystore env uploadKeystorePath androidPackage experienceName s)
    with (run (generateUploadKeystore env uploadKeystorePath androidPackage
                 experienceName) s).
  rewrite upload_run. cbv zeta.
  destruct (spawn env _ _ _) as [[x|t] f]; reflexivity.
Qed.

End Upload.

(** C7. What [generateUploadKeystore] returns: a keystore password and
    a key password that are each a version 4 identifier without its
    hyphens, thirty-two characters and no hyphen among them, and a key
    alias that is the base64 encoding of the application name, so that
    any other call with the same name returns the same alias. *)
Theorem upload_keystore_secrets
    (env : Env) (uploadKeystorePath androidPackage experienceName : string)
    (s : State) (r : Secrets.t) :
  result (generateUploadKeystore env uploadKeystorePath androidPackage experienceName) s
  = Return r ->
  (exists rnds, List.length rnds = 16
                /\ Secrets.keystorePassword r = strip_hyphens (Uuid.v4 rnds))
  /\ String.length (Secrets.keystorePassword r) = 32
  /\ str_count is_hyphen (Secrets.keystorePassword r) = 0
  /\ (exists rnds, List.length rnds = 16
                   /\ Secrets.keyPassword r = strip_hyphens (Uuid.v4 rnds))
  /\ String.length (Secrets.keyPassword r) = 32
  /\ str_count is_hyphen (Secrets.keyPassword r) = 0
  /\ Secrets.keyAlias r = Base64.encode (buffer_from experienceName)
  /\ (forall env' path' package' s' r',
         result (generateUploadKeystore env' path' package' experienceName) s'
         = Return r' ->
         Secrets.keyAlias r' = Secrets.keyAlias r).
Proof.
  intros R. apply upload_returns in R. subst r.
  cbv beta iota delta [Secrets.keystorePassword Secrets.keyAlias Secrets.keyPassword].
  destruct (stripped_uuid (draw env (drawn s)) (draw_length env _)) as (L1 & H1 & _).
  destruct (stripped_uuid (draw env (drawn s + 16)) (draw_length env _)) as (L2 & H2 & _).
  repeat split; try assumption.
  - exists (draw env (drawn s)). split; reflexivity.
  - exists (draw env (drawn s + 16)). split; reflexivity.
  - intros env' p' k' s' r' R'. apply upload_returns in R'. subst r'. reflexivity.
Qed.

Lemma upload_keystore_secrets_witness :
  String.length "00254a6f94b94e03a84d7297bce1062b" = 32
  /\ str_count is_hyphen "50759abfe4094e53b89dc2e70c31567b" = 0
  /\ "QGFsaWNlL2FwcA==" = Base64.encode (buffer_from "@alice/app").
Proof.
  assert (R : result (generateUploadKeystore Sample.world "upload.jks" "com.alice.app"
                        "@alice/app") Sample.start
              = Return {| Secrets.keystorePassword := "00254a6f94b94e03a84d7297bce1062b";
                          Secrets.keyAlias := "QGFsaWNlL2FwcA==";
                          Secrets.keyPassword := "50759abfe4094e53b89dc2e70c31567b" |})
    by (vm_compute; reflexivity).
  destruct (upload_keystore_secrets Sample.world "upload.jks" "com.alice.app"
              "@alice/app" Sample.start _ R) as (_ & L & _ & _ & _ & H & A & _).
  split; [exact L | split; [exact H | exact A]].
Defined.

(** ** [openProjectAsync] *)

Section OpenProject.
Variable env : Env.
Variable projectRoot : string.

Lemma hasWebSupport_run l s :
  readConfigJson env projectRoot = Return (Some {| platforms := Some l |}) ->
  run (hasWebSupportAsync env projectRoot) s
  = (Return (existsb (String.eqb "web") l), s).
Proof.
  intros H. unfold hasWebSupportAsync. unfold_m. rewrite H. reflexivity.
Qed.

(** The run when the project is not configured for the web. *)
Lemma open_unsupported l s :
  readConfigJson env projectRoot = Return (Some {| platforms := Some l |}) ->
  existsb (String.eqb "web") l = false ->
  run (openProjectAsync env projectRoot) s
  = (Return {| OpenResult.success := false; OpenResult.url := None;
               OpenResult.error := None |},
     emit {| chan := GlobalError; args := [AStr (getWebSetupLogs env)] |} s).
Proof.
  intros H W. unfold openProjectAsync, run. unfold bind at 1.
  pose proof (hasWebSupport_run l s H) as R. unfold run in R. rewrite R, W.
  reflexivity.
Qed.

(** The run when it is: the notice is printed, and the outcome is
    that of the [try] statement. *)
Lemma open_supported l s :
  readConfigJson env projectRoot = Return (Some {| platforms := Some l |}) ->
  existsb (String.eqb "web") l = true ->
  run (openProjectAsync env projectRoot) s
  = let s1 := final (logPreviewNotice env) s in
    match constructWebAppUrl env projectRoot with
    | Return u =>
        match opn env u with
        | None =>
            (Return {| OpenResult.success := true; OpenResult.url := Some u;
                       OpenResult.error := None |},
             record (EvOpn u) s1)
        | Some e =>
            (Return {| OpenResult.success := false; OpenResult.url := None;
                       OpenResult.error := Some e |},
             emit {| chan := GlobalError;
                     args := [AStr ("Couldn't start project on web: "
                                    ++ display_opt (message_of e))] |}
               (record (EvOpn u) s1))
        end
    | Throw e =>
        (Return {| OpenResult.success := false; OpenResult.url := None;
                   OpenResult.error := Some e |},
         emit {| chan := GlobalError;
                 args := [AStr ("Couldn't start project on web: "
                                ++ display_opt (message_of e))] |} s1)
    end.
Proof.
  intros H W. unfold openProjectAsync, run. unfold bind at 1.
  pose proof (hasWebSupport_run l s H) as R. unfold run in R. rewrite R, W.
  unfold logPreviewNotice, call_opn. unfold_m. cbn.
  destruct (constructWebAppUrl env projectRoot) as [u|e]; cbn; [|reflexivity].
  destruct (opn env u); reflexivity.
Qed.

End OpenProject.

(** C10. When the [platforms] of the project do not include [web], the
    opener resolves with [{ success: false }] and has not called [opn].
    When they do, and building the address throws, or [opn] throws, the
    opener resolves with [{ success: false, error }], [error] being
    what was thrown. *)
Theorem open_project_failures
    (env : Env) (projectRoot : string) (l : list string) (s : State) :
  readConfigJson env projectRoot = Return (Some {| platforms := Some l |}) ->
  let open := openProjectAsync env projectRoot in
  (existsb (String.eqb "web") l = false ->
   result open s
   = Return {| OpenResult.success := false; OpenResult.url := None;
               OpenResult.error := None |}
   /\ trace (final open s) = trace s)
  /\ (existsb (String.eqb "web") l = true ->
      forall e, constructWebAppUrl env projectRoot = Throw e ->
                result open s
                = Return {| OpenResult.success := false; OpenResult.url := None;
                            OpenResult.error := Some e |}
                /\ trace (final open s) = trace s)
  /\ (existsb (String.eqb "web") l = true ->
      forall u e, constructWebAppUrl env projectRoot = Return u ->
                  opn env u = Some e ->
                  result open s
                  = Return {| OpenResult.success := false; OpenResult.url := None;
                              OpenResult.error := Some e |}
                  /\ trace (final open s) = (trace s ++ [EvOpn u])%list).
Proof.
  intros H open. subst open. unfold result, final.
  split; [|split]; intros W.
  - pose proof (open_unsupported env projectRoot l s H W) as R. unfold run in R.
    rewrite R. auto.
  - intros e C.
    pose proof (open_supported env projectRoot l s H W) as R. unfold run in R.
    rewrite R, C. auto.
  - intros u e C O.
    pose proof (open_supported env projectRoot l s H W) as R. unfold run in R.
    rewrite R, C, O. auto.
Qed.

Lemma open_project_failures_witness :
  (result (openProjectAsync Sample.world "/") Sample.start
   = Return {| OpenResult.success := false; OpenResult.url := None;
               OpenResult.error := None |}
   /\ trace (final (openProjectAsync Sample.world "/") Sample.start) = [])
  /\ result (openProjectAsync Sample.no_address "/web") Sample.start
     = Return {| OpenResult.success := false; OpenResult.url := None;
                 OpenResult.error := Some (new_Error "No web server is running") |}
  /\ result (openProjectAsync Sample.no_browser "/web") Sample.start
     = Return {| OpenResult.success := false; OpenResult.url := None;
                 OpenResult.error := Some (new_Error "spawn EAGAIN") |}.
Proof.
  split; [|split].
  - apply (proj1 (open_project_failures Sample.world "/" ["ios"; "android"] Sample.start
                    eq_refl) eq_refl).
  - apply (proj1 (proj2 (open_project_failures Sample.no_address "/web"
                           ["ios"; "android"; "web"] Sample.start eq_refl))
             eq_refl (new_Error "No web server is running") eq_refl).
  - apply (proj2 (proj2 (open_project_failures Sample.no_browser "/web"
                           ["ios"; "android"; "web"] Sample.start eq_refl))
             eq_refl "http://localhost:19006" (new_Error "spawn EAGAIN") eq_refl eq_refl).
Defined.

(** * Further properties *)

(** ** The hashes [logKeystoreHashes] prints *)

Ltac nsolve := zify; Z.to_euclidean_division_equations; lia.

Section HashFacts.

Lemma sha256_digest_length data : List.length (Sha256.digest data) = 32.
Proof.
  unfold Sha256.digest.
  destruct (Sha256.blocks _ _ _) as [[[[[[[h0 h1] h2] h3] h4] h5] h6] h7]. reflexivity.
Qed.

Lemma strip_colons_step c s :
  strip_colons (String c s)
  = if is_colon c then strip_colons s else String c (strip_colons s).
Proof. reflexivity. Qed.

Lemma colon_pairs_step c1 c2 r :
  colon_pairs (String c1 (String c2 r))
  = if dot c1 && dot c2 && negb (at_end r)
    then String c1 (String c2 (String ":" (colon_pairs r)))
    else String c1 (colon_pairs (String c2 r)).
Proof. reflexivity. Qed.

(** The replacement only inserts colons. *)
Lemma strip_colons_pairs_any s :
  strip_colons (colon_pairs s) = strip_colons s
  /\ forall c, strip_colons (colon_pairs (String c s)) = strip_colons (String c s).
Proof.
  induction s as [|c2 r [IH1 IH2]].
  - split; reflexivity.
  - split; [apply IH2|]. intros c. rewrite colon_pairs_step.
    destruct (dot c && dot c2 && negb (at_end r)).
    + rewrite !strip_colons_step. change (is_colon ":") with true. cbv iota.
      rewrite IH1. reflexivity.
    + rewrite (strip_colons_step c (colon_pairs _)), IH2.
      rewrite (strip_colons_step c (String c2 r)). reflexivity.
Qed.

Lemma strip_colons_none s : str_count is_colon s = 0 -> strip_colons s = s.
Proof.
  induction s as [|c r IH]; [reflexivity|].
  cbn [str_count strip_colons]. destruct (is_colon c); intros H; [discriminate H|].
  rewrite (IH H). reflexivity.
Qed.

Lemma upper_hex_no_colon s :
  str_all is_upper_hex s = true -> str_count is_colon s = 0.
Proof.
  induction s as [|c r IH]; [reflexivity|].
  cbn [str_all str_count]. intros [Hc Hr]%andb_true_iff.
  rewrite (upper_hex_not_colon _ Hc). apply IH, Hr.
Qed.

(** The length of an encoding, and its padding. *)
Lemma encode_length bs :
  String.length (Base64.encode bs) = 4 * ((List.length bs + 2) / 3).
Proof.
  induction bs as [| a | a b | a b c r IH] using list_ind3; try reflexivity.
  cbn [Base64.encode String.length List.length]. rewrite IH.
  replace (S (S (S (List.length r))) + 2) with (1 * 3 + (List.length r + 2)) by lia.
  rewrite Nat.div_add_l by discriminate. lia.
Qed.

Lemma str_count_digit n k :
  (n < 64)%N -> str_count is_pad (String (Base64.digit n) k) = str_count is_pad k.
Proof.
  intros Hn. destruct (digit_value n Hn) as [_ He].
  cbn [str_count]. unfold is_pad. rewrite He. reflexivity.
Qed.

Lemma str_last_cons c s : s <> EmptyString -> str_last (String c s) = str_last s.
Proof. destruct s; [congruence | reflexivity]. Qed.

Lemma encode_padding bs :
  str_count is_pad (Base64.encode bs) = (3 - List.length bs mod 3) mod 3
  /\ (List.length bs mod 3 <> 0 -> str_last (Base64.encode bs) = Some "="%char).
Proof.
  induction bs as [| a | a b | a b c r [IH1 IH2]] using list_ind3.
  - split; [reflexivity | intros H; exfalso; apply H; reflexivity].
  - pose proof (to_N_bound a). split; [|reflexivity].
    cbn [Base64.encode]. rewrite !str_count_digit by nsolve. reflexivity.
  - pose proof (to_N_bound a). pose proof (to_N_bound b). split; [|reflexivity].
    cbn [Base64.encode]. rewrite !str_count_digit by nsolve. reflexivity.
  - pose proof (to_N_bound a). pose proof (to_N_bound b). pose proof (to_N_bound c).
    assert (M : List.length (a :: b :: c :: r) mod 3 = List.length r mod 3).
    { cbn [List.length].
      replace (S (S (S (List.length r)))) with (List.length r + 1 * 3) by lia.
      apply Nat.Div0.mod_add. }
    rewrite M. cbn [Base64.encode]. split.
    + rewrite !str_count_digit by nsolve. exact IH1.
    + intros Hm. specialize (IH2 Hm).
      assert (N : Base64.encode r <> EmptyString)
        by (intros E; rewrite E in IH2; discriminate IH2).
      rewrite !str_last_cons; [exact IH2 | exact N | discriminate ..].
Qed.

End HashFacts.


(** X1. The SHA-256 hash printed for a certificate is sixty-four
    upper-case hexadecimal characters. *)
Theorem sha256_hash_format (data : list byte) :
  String.length (googleHash256 data) = 64
  /\ str_all is_upper_hex (googleHash256 data) = true.
Proof.
  unfold googleHash256. split.
  - rewrite toUpperCase_length, hex_length, sha256_digest_length. reflexivity.
  - apply upper_hex_all.
Qed.

(** X2. The Facebook key hash is twenty-eight characters of base64
    whose only padding character is the last one; decoded and printed
    in upper-case hexadecimal it is the SHA-1 hash printed beside it. *)
Theorem facebook_hash_format (data : list byte) :
  String.length (fbHash data) = 28
  /\ str_count is_pad (fbHash data) = 1
  /\ str_last (fbHash data) = Some "="%char
  /\ Base64.decode (fbHash data) = Sha1.digest data
  /\ toUpperCase (hex (Base64.decode (fbHash data))) = googleHash data.
Proof.
  unfold fbHash, googleHash.
  destruct (encode_padding (Sha1.digest data)) as [P L].
  rewrite encode_length, P, base64_decode_encode, sha1_digest_length in *.
  repeat split. apply L. discriminate.
Qed.

(** X3. The replacement that builds the fingerprint only inserts
    colons: without them, any string is as it was before, and the
    fingerprint is the SHA-1 hash. *)
Theorem fingerprint_without_colons :
  (forall s, strip_colons (colon_pairs s) = strip_colons s)
  /\ (forall data, strip_colons (fingerprint data) = googleHash data).
Proof.
  split.
  - intros s. apply strip_colons_pairs_any.
  - intros data. unfold fingerprint.
    rewrite (proj1 (strip_colons_pairs_any _)).
    apply strip_colons_none, upper_hex_no_colon, upper_hex_all.
Qed.

(** ** The identifiers [generateUploadKeystore] draws *)

Section IdentifierFacts.

Lemma version_digit b :
  hex_digit (Byte.to_N (Uuid.set_version b) / 16) = "4"%char.
Proof. destruct b; reflexivity. Qed.

Lemma variant_digit b :
  is_variant_digit (hex_digit (Byte.to_N (Uuid.set_variant b) / 16)) = true.
Proof. destruct b; reflexivity. Qed.

Lemma stripped_uuid_digits rnds :
  List.length rnds = 16 ->
  String.get 12 (strip_hyphens (Uuid.v4 rnds)) = Some "4"%char
  /\ exists c, String.get 16 (strip_hyphens (Uuid.v4 rnds)) = Some c
               /\ is_variant_digit c = true.
Proof.
  intros L. unfold Uuid.v4. rewrite strip_format.
  do 17 (destruct rnds as [|? rnds]; try discriminate L).
  cbn [Uuid.stamp Nat.eqb hex hex_byte String.get]. split.
  - f_equal. apply version_digit.
  - eexists. split; [reflexivity | apply variant_digit].
Qed.

Lemma buffer_from_length s : List.length (buffer_from s) = String.length s.
Proof.
  unfold buffer_from, list_byte_of_string.
  induction s as [|c r IH]; [reflexivity|]. cbn. rewrite IH. reflexivity.
Qed.

End IdentifierFacts.

(** X4. Each password [generateUploadKeystore] returns is lower-case
    hexadecimal, its thirteenth character is the version digit [4] and
    its seventeenth one of the variant digits [8], [9], [a], [b]. *)
Theorem upload_passwords_are_version4
    (env : Env) (uploadKeystorePath androidPackage experienceName : string)
    (s : State) (r : Secrets.t) :
  result (generateUploadKeystore env uploadKeystorePath androidPackage experienceName) s
  = Return r ->
  (str_all is_lower_hex (Secrets.keystorePassword r) = true
   /\ String.get 12 (Secrets.keystorePassword r) = Some "4"%char
   /\ exists c, String.get 16 (Secrets.keystorePassword r) = Some c
                /\ is_variant_digit c = true)
  /\ (str_all is_lower_hex (Secrets.keyPassword r) = true
      /\ String.get 12 (Secrets.keyPassword r) = Some "4"%char
      /\ exists c, String.get 16 (Secrets.keyPassword r) = Some c
                   /\ is_variant_digit c = true).
Proof.
  intros R. apply upload_returns in R. subst r.
  cbv beta iota delta [Secrets.keystorePassword Secrets.keyPassword].
  split.
  - destruct (stripped_uuid (draw env (drawn s)) (draw_length env _)) as (_ & _ & H).
    destruct (stripped_uuid_digits (draw env (drawn s)) (draw_length env _)) as (V & W).
    auto.
  - destruct (stripped_uuid (draw env (drawn s + 16)) (draw_length env _)) as (_ & _ & H).
    destruct (stripped_uuid_digits (draw env (drawn s + 16)) (draw_length env _))
      as (V & W).
    auto.
Qed.

Lemma upload_passwords_are_version4_witness :
  String.get 12 "00254a6f94b94e03a84d7297bce1062b" = Some "4"%char
  /\ String.get 12 "50759abfe4094e53b89dc2e70c31567b" = Some "4"%char.
Proof.
  assert (R : result (generateUploadKeystore Sample.world "upload.jks" "com.alice.app"
                        "@alice/app") Sample.start
              = Return {| Secrets.keystorePassword := "00254a6f94b94e03a84d7297bce1062b";
                          Secrets.keyAlias := "QGFsaWNlL2FwcA==";
                          Secrets.keyPassword := "50759abfe4094e53b89dc2e70c31567b" |})
    by (vm_compute; reflexivity).
  destruct (upload_passwords_are_version4 Sample.world "upload.jks" "com.alice.app"
              "@alice/app" Sample.start _ R) as ((_ & A & _) & (_ & B & _)).
  split; [exact A | exact B].
Defined.

(** X5. The passwords and the alias [generateUploadKeystore] returns
    are the ones it gave to [keytool], in its one call; thirty-two
    bytes of the random source are used. *)
Theorem upload_secrets_are_keytool_arguments
    (env : Env) (uploadKeystorePath androidPackage experienceName : string)
    (s : State) (r : Secrets.t) :
  let upload := generateUploadKeystore env uploadKeystorePath androidPackage
                  experienceName in
  result upload s = Return r ->
  trace (final upload s)
  = (trace s ++ [EvSpawn "keytool" (genkey_argv uploadKeystorePath androidPackage r)])%list
  /\ drawn (final upload s) = drawn s + 32
  /\ output (final upload s) = output s.
Proof.
  intros upload R. pose proof (upload_returns _ _ _ _ _ _ R) as E.
  subst upload. unfold result, final in *.
  change (generateUploadKeystore env uploadKeystorePath androidPackage experienceName s)
    with (run (generateUploadKeystore env uploadKeystorePath androidPackage
                 experienceName) s) in *.
  rewrite upload_run in *. cbv zeta in *.
  destruct (spawn env _ _ _) as [[x|t] f]; [|discriminate R].
  subst r. cbn [snd with_files record with_drawn trace drawn output].
  repeat split. lia.
Qed.

Lemma upload_secrets_are_keytool_arguments_witness :
  trace (final (generateUploadKeystore Sample.world "upload.jks" "com.alice.app"
                  "@alice/app") Sample.start)
  = [EvSpawn "keytool"
       (genkey_argv "upload.jks" "com.alice.app"
          {| Secrets.keystorePassword := "00254a6f94b94e03a84d7297bce1062b";
             Secrets.keyAlias := "QGFsaWNlL2FwcA==";
             Secrets.keyPassword := "50759abfe4094e53b89dc2e70c31567b" |})].
Proof.
  assert (R : result (generateUploadKeystore Sample.world "upload.jks" "com.alice.app"
                        "@alice/app") Sample.start
              = Return {| Secrets.keystorePassword := "00254a6f94b94e03a84d7297bce1062b";
                          Secrets.keyAlias := "QGFsaWNlL2FwcA==";
                          Secrets.keyPassword := "50759abfe4094e53b89dc2e70c31567b" |})
    by (vm_compute; reflexivity).
  apply (upload_secrets_are_keytool_arguments Sample.world "upload.jks" "com.alice.app"
           "@alice/app" Sample.start _ R).
Defined.

(** X6. When the call of [keytool] fails, [generateUploadKeystore]
    rejects with the error of [keytool] and returns no secrets; the
    call has been made, with the passwords drawn. *)
Theorem upload_keytool_failure
    (env : Env) (uploadKeystorePath androidPackage experienceName : string)
    (s : State) (t : Thrown) :
  let drawn_secrets :=
    {| Secrets.keystorePassword := strip_hyphens (Uuid.v4 (draw env (drawn s)));
       Secrets.keyAlias := Base64.encode (buffer_from experienceName);
       Secrets.keyPassword := strip_hyphens (Uuid.v4 (draw env (drawn s + 16))) |} in
  let argv := genkey_argv uploadKeystorePath androidPackage drawn_secrets in
  let upload := generateUploadKeystore env uploadKeystorePath androidPackage
                  experienceName in
  fst (spawn env "keytool" argv (files s)) = Throw t ->
  result upload s = Throw t
  /\ trace (final upload s) = (trace s ++ [EvSpawn "keytool" argv])%list.
Proof.
  intros r0 argv upload F. subst upload. unfold result, final.
  change (generateUploadKeystore env uploadKeystorePath androidPackage experienceName s)
    with (run (generateUploadKeystore env uploadKeystorePath androidPackage
                 experienceName) s).
  rewrite upload_run. cbv zeta.
  change (spawn env "keytool" _ (files s)) with (spawn env "keytool" argv (files s)).
  destruct (spawn env "keytool" argv (files s)) as [[x|t'] f]; cbn [fst] in F;
    [discriminate F|].
  injection F as ->. split; reflexivity.
Qed.

Lemma upload_keytool_failure_witness :
  result (generateUploadKeystore
            (with_spawn Sample.world (fun _ _ f => (Throw keytool_missing, f)))
            "upload.jks" "com.alice.app" "@alice/app") Sample.start
  = Throw keytool_missing.
Proof.
  apply (upload_keytool_failure
           (with_spawn Sample.world (fun _ _ f => (Throw keytool_missing, f)))
           "upload.jks" "com.alice.app" "@alice/app" Sample.start keytool_missing).
  reflexivity.
Defined.

(** X7. The key alias [generateUploadKeystore] returns decodes to the
    bytes of the application name, and its length is four characters
    for every three bytes of the name, rounded up. *)
Theorem upload_alias_roundtrip
    (env : Env) (uploadKeystorePath androidPackage experienceName : string)
    (s : State) (r : Secrets.t) :
  result (generateUploadKeystore env uploadKeystorePath androidPackage experienceName) s
  = Return r ->
  Base64.decode (Secrets.keyAlias r) = buffer_from experienceName
  /\ String.length (Secrets.keyAlias r) = 4 * ((String.length experienceName + 2) / 3).
Proof.
  intros R. apply upload_returns in R. subst r.
  cbv beta iota delta [Secrets.keyAlias].
  rewrite base64_decode_encode, encode_length, buffer_from_length. auto.
Qed.

Lemma upload_alias_roundtrip_witness :
  Base64.decode "QGFsaWNlL2FwcA==" = buffer_from "@alice/app"
  /\ String.length "QGFsaWNlL2FwcA==" = 4 * ((String.length "@alice/app" + 2) / 3).
Proof.
  assert (R : result (generateUploadKeystore Sample.world "upload.jks" "com.alice.app"
                        "@alice/app") Sample.start
              = Return {| Secrets.keystorePassword := "00254a6f94b94e03a84d7297bce1062b";
                          Secrets.keyAlias := "QGFsaWNlL2FwcA==";
                          Secrets.keyPassword := "50759abfe4094e53b89dc2e70c31567b" |})
    by (vm_compute; reflexivity).
  apply (upload_alias_roundtrip Sample.world "upload.jks" "com.alice.app"
           "@alice/app" Sample.start _ R).
Defined.

(** ** The runs of [logKeystoreHashes] *)

Section HashRuns.
Variable env : Env.
Variables keystorePath keystorePassword keyAlias : string.
Variable log : option Log.

Let certFile := keystorePath ++ ".cer".
Let L := log_or_default log.
Let argv := exportcert_argv keystorePath keystorePassword keyAlias certFile.
Let attempt :=
  try_catch (hashes_body env L keystorePath keystorePassword keyAlias certFile)
            (hashes_catch L).
Let hashes := logKeystoreHashes env keystorePath keystorePassword keyAlias log.

Lemma hashes_unfold s :
  run hashes s
  = match run (hashes_finally env L certFile) (snd (run attempt s)) with
    | (Return _, s2) => (fst (run attempt s), s2)
    | (Throw t, s2) => (Throw t, s2)
    end.
Proof. exact (hashes_run env keystorePath keystorePassword keyAlias log s). Qed.

Lemma attempt_exported s x f data :
  spawn env "keytool" argv (files s) = (Return x, f) ->
  fs_fault env OpRead certFile = None ->
  f !! certFile = Some data ->
  run attempt s
  = (Return tt,
     {| files := f; drawn := drawn s;
        output := (output s ++ hash_lines data)%list;
        trace := (trace s ++ [EvSpawn "keytool" argv; EvReadFile certFile])%list |}).
Proof.
  intros S R F. subst attempt argv. unfold exportcert_argv in S.
  unfold hashes_body, exportCert, spawnAsync, readFileSync, hash_lines, info. unfold_m.
  cbn [with_files record emit files drawn output trace fst snd].
  rewrite S. cbn [with_files record emit files drawn output trace fst snd].
  rewrite R, F. unfold emit, record, with_files.
  cbn [files drawn output trace fst snd]. rewrite <- !app_assoc. reflexivity.
Qed.

Lemma attempt_not_exported s err f :
  spawn env "keytool" argv (files s) = (Throw err, f) ->
  run attempt s
  = run (hashes_catch L err)
      {| files := f; drawn := drawn s; output := output s;
         trace := (trace s ++ [EvSpawn "keytool" argv])%list |}.
Proof.
  intros S. subst attempt argv. unfold exportcert_argv in S.
  unfold hashes_body, exportCert, spawnAsync, run, try_catch.
  unfold bind at 1. unfold bind at 1.
  cbn [with_files record emit files drawn output trace fst snd].
  rewrite S. reflexivity.
Qed.

Lemma catch_with_methods err s :
  has_warn L = true -> has_error L = true ->
  run (hashes_catch L err) s
  = (Throw err,
     {| files := files s; drawn := drawn s;
        output := (output s ++ catch_lines err)%list; trace := trace s |}).
Proof.
  intros W E. unfold hashes_catch, catch_lines, info. unfold_m. rewrite W, E.
  destruct s as [fs d o t].
  destruct (code_is err "ENOENT"), (truthy (stdout_of err)), (truthy (stderr_of err));
    unfold emit; cbn [files drawn output trace fst snd];
    rewrite <- ?app_assoc, ?app_nil_r; reflexivity.
Qed.

Lemma catch_without_warn err s :
  has_warn L = false -> code_is err "ENOENT" = true ->
  run (hashes_catch L err) s = (Throw (new_TypeError "log.warn is not a function"), s).
Proof.
  intros W C. unfold hashes_catch. unfold_m. rewrite W, C. reflexivity.
Qed.

End HashRuns.

(** X8. On every exit path of [logKeystoreHashes], whatever the log
    and whatever failed, the last call made outside is the deletion of
    the certificate file [keystorePath + '.cer']. *)
Theorem hashes_delete_certificate_last
    (env : Env) (keystorePath keystorePassword keyAlias : string)
    (log : option Log) (s : State) :
  exists before,
    trace (final (logKeystoreHashes env keystorePath keystorePassword keyAlias log) s)
    = (before ++ [EvUnlink (keystorePath ++ ".cer")])%list.
Proof.
  eexists. apply (cleanup_attempted env keystorePath keystorePassword keyAlias log s).
Qed.

(** X9. When the deletion is not refused, no file is left at
    [keystorePath + '.cer'] after [logKeystoreHashes], whether it
    returned or threw: also a file that was there before the call is
    gone. *)
Theorem hashes_leave_no_certificate
    (env : Env) (keystorePath keystorePassword keyAlias : string)
    (log : option Log) (s : State) :
  fs_fault env OpUnlink (keystorePath ++ ".cer") = None ->
  files (final (logKeystoreHashes env keystorePath keystorePassword keyAlias log) s)
    !! (keystorePath ++ ".cer") = None.
Proof.
  apply (cleanup_leaves_no_file env keystorePath keystorePassword keyAlias log s).
Qed.

Lemma hashes_leave_no_certificate_witness :
  files (final (logKeystoreHashes
                  (with_spawn Sample.world (fun _ _ f => (Throw keytool_missing, f)))
                  "ks.jks" "pw1" "alias" (Some full_log))
           (with_files (<["ks.jks.cer" := buffer_from "old"]> (files Sample.start))
              Sample.start))
    !! "ks.jks.cer" = None.
Proof.
  apply (hashes_leave_no_certificate
           (with_spawn Sample.world (fun _ _ f => (Throw keytool_missing, f)))
           "ks.jks" "pw1" "alias" (Some full_log)).
  reflexivity.
Defined.

(** X10. With a log that carries an [error] method, the cleanup of
    [logKeystoreHashes] never changes the outcome of its body: a
    refusal other than [ENOENT] is printed with [log.error], and that
    is all. *)
Theorem hashes_cleanup_keeps_result
    (env : Env) (keystorePath keystorePassword keyAlias : string)
    (log : option Log) (s : State) :
  has_error (log_or_default log) = true ->
  let certFile := keystorePath ++ ".cer" in
  let body := try_catch (hashes_body env (log_or_default log) keystorePath
                           keystorePassword keyAlias certFile)
                        (hashes_catch (log_or_default log)) in
  let hashes := logKeystoreHashes env keystorePath keystorePassword keyAlias log in
  result hashes s = result body s
  /\ output (final hashes s)
     = (output (final body s)
        ++ match fs_fault env OpUnlink certFile with
           | Some c =>
               if String.eqb c "ENOENT" then []
               else [{| chan := LogError;
                        args := [AThrown (system_error c "unlink" certFile)] |}]
           | None => []
           end)%list.
Proof.
  intros E. apply (cleanup_keeps_result env keystorePath keystorePassword keyAlias log s E).
Qed.

Lemma hashes_cleanup_keeps_result_witness :
  result (logKeystoreHashes Sample.locked "ks.jks" "pw1" "alias" (Some full_log))
    Sample.start
  = Return tt.
Proof.
  destruct (hashes_cleanup_keeps_result Sample.locked "ks.jks" "pw1" "alias"
              (Some full_log) Sample.start eq_refl) as [R _].
  rewrite R. vm_compute. reflexivity.
Defined.

(** X11. When [keytool] exports the certificate and the file can be
    read and deleted, [logKeystoreHashes] returns, with any log: it has
    printed the four hash lines of the certificate, and it has left the
    files as [keytool] left them, less the certificate file. *)
Theorem hashes_success
    (env : Env) (keystorePath keystorePassword keyAlias : string)
    (log : option Log) (s : State)
    (x : SpawnResult) (f : gmap string (list byte)) (data : list byte) :
  let certFile := keystorePath ++ ".cer" in
  let argv := exportcert_argv keystorePath keystorePassword keyAlias certFile in
  let hashes := logKeystoreHashes env keystorePath keystorePassword keyAlias log in
  spawn env "keytool" argv (files s) = (Return x, f) ->
  fs_fault env OpRead certFile = None ->
  f !! certFile = Some data ->
  fs_fault env OpUnlink certFile = None ->
  result hashes s = Return tt
  /\ output (final hashes s) = (output s ++ hash_lines data)%list
  /\ files (final hashes s) = delete certFile f
  /\ trace (final hashes s)
     = (trace s ++ [EvSpawn "keytool" argv; EvReadFile certFile; EvUnlink certFile])%list.
Proof.
  intros certFile argv hashes S R F U. subst hashes. unfold result, final.
  change (logKeystoreHashes env keystorePath keystorePassword keyAlias log s)
    with (run (logKeystoreHashes env keystorePath keystorePassword keyAlias log) s).
  rewrite hashes_unfold.
  rewrite (attempt_exported env keystorePath keystorePassword keyAlias log s x f data
             S R F).
  cbn [fst snd]. rewrite finally_run. fold certFile. rewrite U.
  cbn [files]. rewrite F. unfold record, with_files. cbn [files drawn output trace fst snd].
  rewrite <- !app_assoc. repeat split.
Qed.

Lemma hashes_success_witness :
  result (logKeystoreHashes Sample.world "ks.jks" "pw1" "alias" None) Sample.start
  = Return tt
  /\ output (final (logKeystoreHashes Sample.world "ks.jks" "pw1" "alias" None)
               Sample.start)
     = hash_lines (buffer_from "abc").
Proof.
  destruct (hashes_success Sample.world "ks.jks" "pw1" "alias" None Sample.start
              {| status := 0; stdout := ""; stderr := "" |}
              (<["ks.jks.cer" := buffer_from "abc"]> (files Sample.start))
              (buffer_from "abc") eq_refl eq_refl eq_refl eq_refl) as (R & O & _).
  split; [exact R | exact O].
Defined.

(** X12. When [keytool] fails and the log carries [warn] and [error],
    [logKeystoreHashes] rejects with the very error of [keytool], after
    printing the installation hint (for [ENOENT]) and the captured
    [stdout] and [stderr]; the certificate file is not read, and its
    deletion is still attempted. *)
Theorem hashes_keytool_error_propagates
    (env : Env) (keystorePath keystorePassword keyAlias : string)
    (log : option Log) (s : State) (err : Thrown) (f : gmap string (list byte)) :
  let certFile := keystorePath ++ ".cer" in
  let argv := exportcert_argv keystorePath keystorePassword keyAlias certFile in
  let hashes := logKeystoreHashes env keystorePath keystorePassword keyAlias log in
  spawn env "keytool" argv (files s) = (Throw err, f) ->
  has_warn (log_or_default log) = true ->
  has_error (log_or_default log) = true ->
  fs_fault env OpUnlink certFile = None ->
  result hashes s = Throw err
  /\ output (final hashes s) = (output s ++ catch_lines err)%list
  /\ trace (final hashes s)
     = (trace s ++ [EvSpawn "keytool" argv; EvUnlink certFile])%list.
Proof.
  intros certFile argv hashes S W E U. subst hashes. unfold result, final.
  change (logKeystoreHashes env keystorePath keystorePassword keyAlias log s)
    with (run (logKeystoreHashes env keystorePath keystorePassword keyAlias log) s).
  rewrite hashes_unfold.
  rewrite (attempt_not_exported env keystorePath keystorePassword keyAlias log s err f S).
  rewrite (catch_with_methods log err _ W E).
  cbn [fst snd]. rewrite finally_run. fold certFile. rewrite U.
  cbn [files]. destruct (f !! certFile);
    unfold record, with_files; cbn [files drawn output trace fst snd];
    rewrite <- !app_assoc; repeat split.
Qed.

Lemma hashes_keytool_error_propagates_witness :
  result (logKeystoreHashes
            (with_spawn Sample.world (fun _ _ f => (Throw keytool_missing, f)))
            "ks.jks" "pw1" "alias" (Some full_log)) Sample.start
  = Throw keytool_missing.
Proof.
  apply (hashes_keytool_error_propagates
           (with_spawn Sample.world (fun _ _ f => (Throw keytool_missing, f)))
           "ks.jks" "pw1" "alias" (Some full_log) Sample.start keytool_missing
           (files Sample.start) eq_refl eq_refl eq_refl eq_refl).
Defined.

(** X13. When [keytool] is not installed and the caller passed no log,
    [logKeystoreHashes] prints no hint and rejects with the [TypeError]
    of the call [log.warn], in place of the [ENOENT] error. *)
Theorem hashes_default_log_masks_missing_keytool
    (env : Env) (keystorePath keystorePassword keyAlias : string)
    (s : State) (err : Thrown) (f : gmap string (list byte)) :
  let certFile := keystorePath ++ ".cer" in
  let argv := exportcert_argv keystorePath keystorePassword keyAlias certFile in
  let hashes := logKeystoreHashes env keystorePath keystorePassword keyAlias None in
  spawn env "keytool" argv (files s) = (Throw err, f) ->
  code_is err "ENOENT" = true ->
  fs_fault env OpUnlink certFile = None ->
  result hashes s = Throw (new_TypeError "log.warn is not a function")
  /\ output (final hashes s) = output s.
Proof.
  intros certFile argv hashes S C U. subst hashes. unfold result, final.
  change (logKeystoreHashes env keystorePath keystorePassword keyAlias None s)
    with (run (logKeystoreHashes env keystorePath keystorePassword keyAlias None) s).
  rewrite hashes_unfold.
  rewrite (attempt_not_exported env keystorePath keystorePassword keyAlias None s err f S).
  rewrite (catch_without_warn None err _ eq_refl C).
  cbn [fst snd]. rewrite finally_run. fold certFile. rewrite U.
  cbn [files]. destruct (f !! certFile); split; reflexivity.
Qed.

Lemma hashes_default_log_masks_missing_keytool_witness :
  result (logKeystoreHashes
            (with_spawn Sample.world (fun _ _ f => (Throw keytool_missing, f)))
            "ks.jks" "pw1" "alias" None) Sample.start
  = Throw (new_TypeError "log.warn is not a function").
Proof.
  apply (hashes_default_log_masks_missing_keytool
           (with_spawn Sample.world (fun _ _ f => (Throw keytool_missing, f)))
           "ks.jks" "pw1" "alias" Sample.start keytool_missing
           (files Sample.start) eq_refl eq_refl eq_refl).
Defined.

(** ** The failures of [backupExistingCredentials] *)



(** X15. The backup changes no file but the one at [outputPath],
    whatever the credential service answers and whether or not the
    write succeeds. *)
Theorem backup_touches_only_output
    (env : Env) (outputPath username experienceName : string)
    (log : option Log) (logSecrets : option bool) (s : State) (path : string) :
  path <> outputPath ->
  files (final (backupExistingCredentials env outputPath username experienceName
                  log logSecrets) s) !! path
  = files s !! path.
Proof.
  intros N.
  unfold backupExistingCredentials, lookup_credentials, writeFileSync.
  unfold_m. cbn.
  destruct (getCredentialsForPlatform env _) as [[c|]|t]; cbn; try reflexivity.
  destruct (fs_fault env OpWrite outputPath); cbn.
  - reflexivity.
  - destruct logSecrets as [[|]|]; cbn; apply lookup_insert_ne; congruence.
Qed.

Lemma backup_touches_only_output_witness :
  files (final (backupExistingCredentials Sample.world "out.jks" "alice" "@alice/app"
                  None None) Sample.start) !! Sample.tool_path
  = Some (buffer_from "jar").
Proof.
  rewrite (backup_touches_only_output Sample.world "out.jks" "alice" "@alice/app"
             None None Sample.start Sample.tool_path); [reflexivity | discriminate].
Defined.

(** X16. When the credential service itself fails, the backup rejects
    with that failure; nothing is written and only the first line is
    printed. *)
Theorem backup_lookup_failure
    (env : Env) (outputPath username experienceName : string)
    (log : option Log) (logSecrets : option bool) (s : State) (t : Thrown) :
  getCredentialsForPlatform env (metadata username experienceName) = Throw t ->
  let backup := backupExistingCredentials env outputPath username experienceName
                  log logSecrets in
  result backup s = Throw t
  /\ files (final backup s) = files s
  /\ trace (final backup s) = (trace s ++ [EvLookup (metadata username experienceName)])%list
  /\ output (final backup s)
     = (output s ++ [info ("Retreiving Android keystore for " ++ experienceName)])%list.
Proof.
  intros H backup. subst backup.
  unfold backupExistingCredentials, lookup_credentials.
  unfold metadata in H. unfold_m. cbn. rewrite H. cbn. repeat split.
Qed.

Lemma backup_lookup_failure_witness :
  result (backupExistingCredentials
            (with_service Sample.world (fun _ => Throw (new_Error "Network Error")))
            "out.jks" "alice" "@alice/app" None None) Sample.start
  = Throw (new_Error "Network Error").
Proof.
  apply (backup_lookup_failure
           (with_service Sample.world (fun _ => Throw (new_Error "Network Error")))
           "out.jks" "alice" "@alice/app" None None Sample.start
           (new_Error "Network Error") eq_refl).
Defined.

(** ** The tool of [exportPrivateKey] *)

(** X17. When the tool is not in the cache and the download succeeds,
    the downloaded bytes are stored at the tool's path, one line
    announces the download, and from then on the tool is found: the
    same step run again downloads nothing and changes nothing. *)
Theorem tool_fetched_once (env : Env) (log : Log) (s : State) (body : list byte) :
  let tool := path_join env (dotExpoHomeDirectory env) "android_tools_pepk.jar" in
  files s !! tool = None ->
  fs_fault env OpWrite tool = None ->
  axios_get env downloadUrl = Return body ->
  let s1 := final (ensure_tool env log tool) s in
  result (ensure_tool env log tool) s = Return tt
  /\ files s1 = <[tool := body]> (files s)
  /\ output s1
     = (output s ++ [info ("Downloading PEPK tool from Google Play to " ++ tool)])%list
  /\ trace s1 = (trace s ++ [EvDownload downloadUrl])%list
  /\ run (ensure_tool env log tool) s1 = (Return tt, s1).
Proof.
  intros tool A W D s1.
  assert (R : run (ensure_tool env log tool) s
              = (Return tt,
                 {| files := <[tool := body]> (files s); drawn := drawn s;
                    output := (output s
                               ++ [info ("Downloading PEPK tool from Google Play to "
                                         ++ tool)])%list;
                    trace := (trace s ++ [EvDownload downloadUrl])%list |})).
  { unfold ensure_tool, existsSync, download_tool, info. unfold_m.
    rewrite bool_decide_eq_false_2 by (rewrite A; intros [x X]; discriminate X).
    cbn [negb]. unfold emit, record, with_files. cbn [files drawn output trace].
    rewrite W, D. cbn [files drawn output trace]. rewrite insert_insert_eq. reflexivity. }
  subst s1. unfold result, final. unfold run in R. rewrite R. cbn [fst snd].
  repeat split.
  apply ensure_tool_cached. cbn [files]. rewrite lookup_insert_eq. eauto.
Qed.

Lemma tool_fetched_once_witness :
  files (final (ensure_tool Sample.world default_log Sample.tool_path)
           (with_files ∅ Sample.start))
  = <[Sample.tool_path := buffer_from "jar"]> ∅.
Proof.
  destruct (tool_fetched_once Sample.world default_log (with_files ∅ Sample.start)
              (buffer_from "jar")) as (_ & F & _);
    [apply lookup_empty | reflexivity | reflexivity | exact F].
Defined.

(** X18. When the tool is not in the cache and the download fails,
    [exportPrivateKey] rejects with the failure of the download itself;
    no session is opened, and the passwords are written nowhere. *)
Theorem export_download_failure
    (env : Env) (keystorePath keystorePassword keyAlias keyPassword : string)
    (encryptionKey outputPath : string) (log : option Log) (s : State) (t : Thrown) :
  let tool := path_join env (dotExpoHomeDirectory env) "android_tools_pepk.jar" in
  let export := exportPrivateKey env keystorePath keystorePassword keyAlias keyPassword
                  encryptionKey outputPath log in
  files s !! tool = None ->
  fs_fault env OpWrite tool = None ->
  axios_get env downloadUrl = Throw t ->
  result export s = Throw t
  /\ trace (final export s) = (trace s ++ [EvDownload downloadUrl])%list
  /\ pty_writes (trace (final export s)) = pty_writes (trace s).
Proof.
  intros tool export A W D.
  assert (R : exists s1,
             run (ensure_tool env (log_or_default log) tool) s = (Throw t, s1)
             /\ trace s1 = (trace s ++ [EvDownload downloadUrl])%list).
  { eexists. unfold ensure_tool, existsSync, download_tool. unfold_m.
    rewrite bool_decide_eq_false_2 by (rewrite A; intros [x X]; discriminate X).
    cbn [negb]. unfold emit, record, with_files. cbn [files drawn output trace].
    rewrite W, D. split; reflexivity. }
  destruct R as (s1 & R & T).
  pose proof (export_without_tool env keystorePath keystorePassword keyAlias keyPassword
                encryptionKey outputPath log s t s1 R) as X.
  subst export. unfold result, final. unfold run in X. rewrite X. cbn [fst snd].
  rewrite T, pty_writes_app. cbn. rewrite app_nil_r. auto.
Qed.

Lemma export_download_failure_witness :
  result (exportPrivateKey
            (with_download Sample.world (fun _ => Throw (new_Error "Network Error")))
            "ks.jks" "pw1" "alias" "pw2" "ek" "key.pem" None)
    (with_files ∅ Sample.start)
  = Throw (new_Error "Network Error").
Proof.
  apply (export_download_failure
           (with_download Sample.world (fun _ => Throw (new_Error "Network Error")))
           "ks.jks" "pw1" "alias" "pw2" "ek" "key.pem" None
           (with_files ∅ Sample.start) (new_Error "Network Error"));
    [apply lookup_empty | reflexivity | reflexivity].
Defined.

(** X19. When the tool is in the cache, [exportPrivateKey] downloads
    nothing: it starts [java] (or [java.exe]) once, with the tool, the
    keystore, the alias, the output path and the encryption key as
    arguments and neither password among what it adds to them, writes
    the two passwords if the child was created, and prints one line,
    the success line after an exit with code 0 or the error after an
    [error] event, and no line otherwise. *)
Theorem export_with_cached_tool
    (env : Env) (keystorePath keystorePassword keyAlias keyPassword : string)
    (encryptionKey outputPath : string) (log : option Log) (s : State) :
  let tool := path_join env (dotExpoHomeDirectory env) "android_tools_pepk.jar" in
  let argv := [ "-jar"; tool; "--keystore"; keystorePath; "--alias"; keyAlias;
                "--output"; outputPath; "--encryptionkey"; encryptionKey ] in
  let w1 := keystorePassword ++ NEWLINE env in
  let w2 := keyPassword ++ NEWLINE env in
  let export := exportPrivateKey env keystorePath keystorePassword keyAlias keyPassword
                  encryptionKey outputPath log in
  is_Some (files s !! tool) ->
  trace (final export s)
  = (trace s
     ++ EvPtySpawn (javaExecutable env) argv
     :: match ptySpawn env (javaExecutable env) argv (files s) with
        | PtyThrows _ => []
        | PtyChild _ => [EvPtyWrite w1; EvPtyWrite w2]
        end)%list
  /\ output (final export s)
     = (output s
        ++ match ptySpawn env (javaExecutable env) argv (files s) with
           | PtyThrows _ => []
           | PtyChild react =>
               match fst (react [w1; w2]) with
               | PtyError e =>
                   [{| chan := LogCall; args := [AStr "error"; AThrown (ThrownError e)] |}]
               | PtyExit c =>
                   if (c =? 0)%Z
                   then [info ("Exported and encrypted private app signing key to file "
                               ++ outputPath)]
                   else []
               end
           end)%list.
Proof.
  intros tool argv w1 w2 export C.
  pose proof (ensure_tool_cached env (log_or_default log) s C) as E.
  pose proof (export_with_tool env keystorePath keystorePassword keyAlias keyPassword
                encryptionKey outputPath log s s E) as X.
  subst export. unfold result, final. unfold run in X. rewrite X. clear X.
  cbv zeta. unfold pepk_argv. fold tool. fold argv. fold w1. fold w2.
  destruct (ptySpawn env (javaExecutable env) argv (files s)) as [t|react].
  { cbn. rewrite app_nil_r. auto. }
  destruct (react [w1; w2]) as [[e|c] f]; cbn [fst snd].
  { unfold emit, record, with_files. cbn [files drawn output trace].
    rewrite <- !app_assoc. auto. }
  destruct (c =? 0)%Z; unfold emit, record, with_files; cbn [files drawn output trace snd];
    rewrite <- !app_assoc, ?app_nil_r; auto.
Qed.

Lemma export_with_cached_tool_witness :
  trace (final (exportPrivateKey Sample.world "ks.jks" "pw1" "alias" "pw2" "ek" "key.pem"
                  None) Sample.start)
  = [ EvPtySpawn "java"
        [ "-jar"; Sample.tool_path; "--keystore"; "ks.jks"; "--alias"; "alias";
          "--output"; "key.pem"; "--encryptionkey"; "ek" ];
      EvPtyWrite ("pw1" ++ lf); EvPtyWrite ("pw2" ++ lf) ].
Proof.
  apply (export_with_cached_tool Sample.world "ks.jks" "pw1" "alias" "pw2" "ek" "key.pem"
           None Sample.start).
  vm_compute. eauto.
Defined.

(** ** The outcomes of [openProjectAsync] *)

(** X20. When the project is configured for the web, its address can
    be built and [opn] does not throw, [openProjectAsync] resolves with
    [{ success: true, url }]: the notice has been printed on the
    console, [opn] has been called once, with that address, and
    nothing has gone to the error log. *)
Theorem open_project_success
    (env : Env) (projectRoot : string) (l : list string) (s : State) (u : string) :
  readConfigJson env projectRoot = Return (Some {| platforms := Some l |}) ->
  existsb (String.eqb "web") l = true ->
  constructWebAppUrl env projectRoot = Return u ->
  opn env u = None ->
  let open := openProjectAsync env projectRoot in
  result open s
  = Return {| OpenResult.success := true; OpenResult.url := Some u;
              OpenResult.error := None |}
  /\ trace (final open s) = (trace s ++ [EvOpn u])%list
  /\ output (final open s)
     = (output s
        ++ [ {| chan := ConsoleLog; args := [] |};
             {| chan := ConsoleLog;
                args := [AStr (chalk env "bold.yellow"
                                 "Web support in Expo is experimental and subject to breaking changes. Do not use this in production yet.")] |};
             {| chan := ConsoleLog; args := [] |} ])%list.
Proof.
  intros H W C O open. subst open. unfold result, final.
  pose proof (open_supported env projectRoot l s H W) as R. unfold run in R.
  rewrite R, C, O. cbn [fst snd].
  unfold logPreviewNotice. unfold_m. unfold emit, record. cbn [files drawn output trace snd].
  rewrite <- !app_assoc. repeat split.
Qed.

Lemma open_project_success_witness :
  result (openProjectAsync Sample.world "/web") Sample.start
  = Return {| OpenResult.success := true;
              OpenResult.url := Some "http://localhost:19006";
              OpenResult.error := None |}.
Proof.
  apply (open_project_success Sample.world "/web" ["ios"; "android"; "web"] Sample.start
           "http://localhost:19006" eq_refl eq_refl eq_refl eq_refl).
Defined.

(** X21. Once the configuration has given a list of platforms,
    [openProjectAsync] never rejects: it resolves, and with
    [success: true] exactly when the list includes [web], the address
    was built and [opn] did not throw; [opn] is called at most once,
    and only with the address built. *)
Theorem open_project_resolves
    (env : Env) (projectRoot : string) (l : list string) (s : State) :
  readConfigJson env projectRoot = Return (Some {| platforms := Some l |}) ->
  let open := openProjectAsync env projectRoot in
  exists r,
    result open s = Return r
    /\ (OpenResult.success r = true
        <-> existsb (String.eqb "web") l = true
            /\ exists u, constructWebAppUrl env projectRoot = Return u /\ opn env u = None)
    /\ (trace (final open s) = trace s
        \/ exists u, constructWebAppUrl env projectRoot = Return u
                     /\ trace (final open s) = (trace s ++ [EvOpn u])%list).
Proof.
  intros H open. subst open. unfold result, final.
  destruct (existsb (String.eqb "web") l) eqn:W.
  - pose proof (open_supported env projectRoot l s H W) as R. unfold run in R.
    rewrite R. clear R. cbv zeta.
    destruct (constructWebAppUrl env projectRoot) as [u|e].
    + destruct (opn env u) as [e|] eqn:O; eexists; (split; [reflexivity|]); cbn [fst snd].
      * split.
        -- split; [discriminate|]. intros (_ & u' & [= <-] & O'). congruence.
        -- right. exists u. split; reflexivity.
      * split.
        -- split; [|reflexivity]. intros _. split; [reflexivity|]. eauto.
        -- right. exists u. split; reflexivity.
    + eexists. split; [reflexivity|]. cbn [fst snd]. split.
      * split; [discriminate|]. intros (_ & u' & X & _). discriminate X.
      * left. reflexivity.
  - pose proof (open_unsupported env projectRoot l s H W) as R. unfold run in R.
    rewrite R. eexists. split; [reflexivity|]. cbn [fst snd]. split.
    + split; [discriminate|]. intros (X & _). discriminate X.
    + left. reflexivity.
Qed.

Lemma open_project_resolves_witness :
  exists r, result (openProjectAsync Sample.no_browser "/web") Sample.start = Return r.
Proof.
  destruct (open_project_resolves Sample.no_browser "/web" ["ios"; "android"; "web"]
              Sample.start eq_refl) as (r & R & _).
  exists r. exact R.
Defined.

(** X22. A failure to read the configuration is not caught: when
    [readConfigJsonAsync] rejects, [openProjectAsync] rejects with the
    same error; when it gives no [exp], or an [exp] without
    [platforms], [openProjectAsync] rejects with a [TypeError]. In each
    case nothing is printed and [opn] is not called. *)
Theorem open_project_config_errors_escape
    (env : Env) (projectRoot : string) (s : State) :
  let open := openProjectAsync env projectRoot in
  (forall t, readConfigJson env projectRoot = Throw t ->
             run open s = (Throw t, s))
  /\ (readConfigJson env projectRoot = Return None
      \/ readConfigJson env projectRoot = Return (Some {| platforms := None |}) ->
      exists message, run open s = (Throw (new_TypeError message), s)).
Proof.
  intros open. subst open. unfold run, openProjectAsync, hasWebSupportAsync.
  split; [intros t H | intros [H|H]; eexists];
    unfold bind at 1; unfold bind at 1; unfold lift; rewrite H; reflexivity.
Qed.

Lemma open_project_config_errors_escape_witness :
  exists message,
    run (openProjectAsync (with_config Sample.world (fun _ => Return None)) "/web")
      Sample.start
    = (Throw (new_TypeError message), Sample.start).
Proof.
  apply (proj2 (open_project_config_errors_escape
                  (with_config Sample.world (fun _ => Return None)) "/web"
                  Sample.start)).
  left. reflexivity.
Defined.
